(** * The kubermatic project resource: lifecycle operations

    A shallow embedding of [kubermatic/resource_project.go]: the four
    lifecycle operations of the [kubermatic_project] resource
    ([resourceProjectCreate], [resourceProjectRead], [resourceProjectUpdate],
    [resourceProjectDelete]) together with the parts of the Terraform plugin
    SDK they are written against ([schema.ResourceData],
    [resource.StateChangeConf], [resource.Retry]) and the remote API client.

    Go's [error] interface is an inductive type with one constructor per
    dynamic type the code distinguishes; a [nil] error is [None].  The
    remote API is a scripted oracle threaded through the operations as
    explicit state, and time is a virtual clock in milliseconds. *)

From Stdlib Require Import ZArith Lia.
From stdpp Require Import base option list strings gmap fin_maps.

Open Scope string_scope.
Open Scope nat_scope.

(** ** Errors *)

(** The dynamic types of the errors the resource code meets.  [NetError] stands
    for any value implementing [net.Error], with the answers of its
    [Timeout()] and [Temporary()] methods; the [GetProject*] constructors are
    the typed responses of the generated API client; [OtherError] is any other
    error value; [Errorf] is the value built by [fmt.Errorf];
    [TimeoutError] and [UnexpectedStateError] are the two errors the SDK's
    [WaitForState] produces on its own. *)
Inductive error : Type :=
| NetError (timeout temporary : bool) (msg : string)
| GetProjectConflict (msg : string)
| GetProjectUnauthorized (msg : string)
| GetProjectDefault (code : Z) (msg : string)
| OtherError (msg : string)
| Errorf (msg : string)
| TimeoutError (LastState : string) (ExpectedState : list string)
| UnexpectedStateError (State : string) (ExpectedState : list string).

(** [strings.Join] *)
Fixpoint Join (l : list string) (sep : string) : string :=
  match l with
  | [] => ""
  | [s] => s
  | s :: l' => s +:+ sep +:+ Join l' sep
  end.

(** The [Error()] method.  The messages of the client's and the network's
    errors are carried by the value; the SDK's two errors render their fields
    (the duration that [TimeoutError] also prints is not represented, and
    neither error has a last error to print here). *)
Definition Error (e : error) : string :=
  match e with
  | NetError _ _ msg => msg
  | GetProjectConflict msg => msg
  | GetProjectUnauthorized msg => msg
  | GetProjectDefault _ msg => msg
  | OtherError msg => msg
  | Errorf msg => msg
  | TimeoutError last expected =>
      "timeout while waiting for state to become '" +:+ Join expected ", " +:+ "'"
      +:+ (if String.eqb last "" then "" else " (last state: '" +:+ last +:+ "')")
  | UnexpectedStateError st expected =>
      "unexpected state '" +:+ st +:+ "', wanted target '" +:+ Join expected ", "
      +:+ "'. last error: %!s(<nil>)"
  end.

(** The result of a call that returns [(value, error)]. *)
Inductive Result (A : Type) : Type :=
| Ok (a : A)
| Err (e : error).
Arguments Ok {A} a.
Arguments Err {A} e.

(** [http.StatusForbidden] and [http.StatusNotFound]. *)
Definition StatusForbidden : Z := 403.
Definition StatusNotFound : Z := 404.

Definition projectActive : string := "Active".
Definition projectInactive : string := "Inactive".

(** ** The remote API *)

(** [strfmt.DateTime], kept as the text its [String()] method renders. *)
Record DateTime : Type := { DateTime_String : string }.

(** [models.Project].  [Labels] is a Go map that may be [nil]. *)
Record Project : Type := {
  ID : string;
  Name : string;
  Labels : option (gmap string string);
  Status : string;
  CreationTimestamp : DateTime;
  DeletionTimestamp : DateTime
}.

(** The body of a create request: [p.Body.Name], [p.Body.Labels]. *)
Record CreateBody : Type := {
  cb_Name : string;
  cb_Labels : option (gmap string string)
}.

(** The requests the client sends. *)
Inductive Request : Type :=
| CreateProjectReq (body : CreateBody)
| GetProjectReq (projectID : string)
| UpdateProjectReq (projectID : string) (body : Project)
| DeleteProjectReq (projectID : string).

(** The remote side as seen through [k.client.Project]: what it answers to
    the create, update and delete calls and to the n-th get call, the number
    of get calls made so far, and the requests received (latest first). *)
Record World : Type := {
  onCreate : Result Project;
  onGet : nat -> Result Project;
  onUpdate : option error;
  onDelete : option error;
  gets : nat;
  sent : list Request
}.

(** The client's calls: each returns the scripted answer and leaves the
    request on record. *)
Definition log_request (q : Request) (w : World) : World :=
  {| onCreate := onCreate w; onGet := onGet w; onUpdate := onUpdate w;
     onDelete := onDelete w; gets := gets w; sent := q :: sent w |}.

Definition CreateProject (body : CreateBody) (w : World) : Result Project * World :=
  (onCreate w, log_request (CreateProjectReq body) w).

Definition GetProject (projectID : string) (w : World) : Result Project * World :=
  (onGet w (gets w),
   {| onCreate := onCreate w; onGet := onGet w; onUpdate := onUpdate w;
      onDelete := onDelete w; gets := S (gets w);
      sent := GetProjectReq projectID :: sent w |}).

Definition UpdateProject (projectID : string) (body : Project) (w : World)
  : option error * World :=
  (onUpdate w, log_request (UpdateProjectReq projectID body) w).

Definition DeleteProject (projectID : string) (w : World) : option error * World :=
  (onDelete w, log_request (DeleteProjectReq projectID) w).

(** ** [schema.ResourceData] *)

(** The attributes of the resource schema. *)
Record Attrs : Type := {
  name : string;
  labels : gmap string string;
  status : string;
  creation_timestamp : string;
  deletion_timestamp : string
}.

Inductive TimeoutKey : Type := TimeoutCreate | TimeoutRead | TimeoutUpdate | TimeoutDelete.

(** The resource data handed to an operation: the stored identity, the
    attributes of the prior state (what [GetChange] reports as old), the
    current attributes (the planned values, overwritten by [Set]) and the
    configured timeouts in milliseconds. *)
Record ResourceData : Type := {
  rd_id : string;
  rd_old : Attrs;
  rd_new : Attrs;
  rd_timeouts : TimeoutKey -> nat
}.

(** Values as the schema types them: [TypeString] and [TypeMap] of strings. *)
Inductive Value : Type :=
| VString (s : string)
| VMap (m : gmap string string).

#[global] Instance Value_eq_dec : EqDecision Value.
Proof. solve_decision. Defined.

(** [d.Id()], [d.SetId(v)] and [d.Timeout(key)]. *)
Definition Id (d : ResourceData) : string := rd_id d.

Definition SetId (v : string) (d : ResourceData) : ResourceData :=
  {| rd_id := v; rd_old := rd_old d; rd_new := rd_new d; rd_timeouts := rd_timeouts d |}.

Definition Timeout (key : TimeoutKey) (d : ResourceData) : nat := rd_timeouts d key.

(** The attribute stored under a key of the schema. *)
Definition attr (key : string) (a : Attrs) : option Value :=
  if String.eqb key "name" then Some (VString (name a))
  else if String.eqb key "labels" then Some (VMap (labels a))
  else if String.eqb key "status" then Some (VString (status a))
  else if String.eqb key "creation_timestamp" then Some (VString (creation_timestamp a))
  else if String.eqb key "deletion_timestamp" then Some (VString (deletion_timestamp a))
  else None.

(** [d.Get(key)]; a key outside the schema yields [nil]. *)
Definition Get (key : string) (d : ResourceData) : option Value := attr key (rd_new d).

(** [d.GetOk(key)]: the value, and whether it is set to a non-zero value. *)
Definition GetOk (key : string) (d : ResourceData) : option Value * bool :=
  match Get key d with
  | Some (VString s) => (Some (VString s), negb (String.eqb s ""))
  | Some (VMap m) => (Some (VMap m), negb (bool_decide (m = ∅)))
  | None => (None, false)
  end.

(** [d.GetChange(key)] and [d.HasChange(key)]. *)
Definition GetChange (key : string) (d : ResourceData) : option Value * option Value :=
  (attr key (rd_old d), attr key (rd_new d)).

Definition HasChange (key : string) (d : ResourceData) : bool :=
  negb (bool_decide (attr key (rd_old d) = attr key (rd_new d))).

(** The type assertions [v.(string)] and [v.(map[string]interface{})]; they
    cannot fail on a value read under a key of the matching schema type, and
    the other cases stand for the zero value. *)
Definition as_string (v : option Value) : string :=
  match v with Some (VString s) => s | _ => "" end.

Definition as_map (v : option Value) : gmap string string :=
  match v with Some (VMap m) => m | _ => ∅ end.

(** The data with the current attributes replaced. *)
Definition with_attrs (a : Attrs) (d : ResourceData) : ResourceData :=
  {| rd_id := rd_id d; rd_old := rd_old d; rd_new := a; rd_timeouts := rd_timeouts d |}.

(** [d.Set(key, value)] for a whole attribute, which is how the resource
    uses it: it fails on a key that is not one of the five attributes and on
    a value of the wrong type, and leaves the data as it was then.  The
    addresses of single map elements, which the SDK also takes, are not
    represented, and the text of the error stands for the SDK's. *)
Definition Set_ (key : string) (v : Value) (d : ResourceData) : option error * ResourceData :=
  let a := rd_new d in
  match v with
  | VString s =>
      if String.eqb key "name" then
        (None, with_attrs {| name := s; labels := labels a; status := status a;
                             creation_timestamp := creation_timestamp a;
                             deletion_timestamp := deletion_timestamp a |} d)
      else if String.eqb key "status" then
        (None, with_attrs {| name := name a; labels := labels a; status := s;
                             creation_timestamp := creation_timestamp a;
                             deletion_timestamp := deletion_timestamp a |} d)
      else if String.eqb key "creation_timestamp" then
        (None, with_attrs {| name := name a; labels := labels a; status := status a;
                             creation_timestamp := s;
                             deletion_timestamp := deletion_timestamp a |} d)
      else if String.eqb key "deletion_timestamp" then
        (None, with_attrs {| name := name a; labels := labels a; status := status a;
                             creation_timestamp := creation_timestamp a;
                             deletion_timestamp := s |} d)
      else (Some (OtherError ("Invalid address to set: " +:+ key)), d)
  | VMap m =>
      if String.eqb key "labels" then
        (None, with_attrs {| name := name a; labels := m; status := status a;
                             creation_timestamp := creation_timestamp a;
                             deletion_timestamp := deletion_timestamp a |} d)
      else (Some (OtherError ("Invalid address to set: " +:+ key)), d)
  end.

(** ** The SDK's wait engine: [resource.StateChangeConf] and [resource.Retry]

    The package [helper/resource] of the Terraform plugin SDK is imported by
    the resource code and is not part of the repository.  It is embedded
    here after its behaviour, as far as the resource code relies on it:

    - [WaitForState] sleeps [Delay], then calls [Refresh] in rounds.  An error
      from [Refresh] ends the wait with that error: the engine has no
      classifier of its own, and the signature of [Refresh] has no way to
      mark an error as retryable.  A state in [Target] ends the wait with the
      result, a state in [Pending] starts another round, any other state is
      an [UnexpectedStateError].  Between rounds it sleeps a pause that
      doubles from 100ms, is raised to [MinTimeout] and capped at ten
      seconds.  Once [Timeout] has elapsed it gives up with a [TimeoutError]
      that tells the state seen last.
    - [Retry] runs [WaitForState] over a function that returns [nil] (state
      "success"), a retryable error (state "retryableerror") or a
      non-retryable error (an error of [Refresh]), with [MinTimeout] 500ms
      and no [Delay], and returns the error of the last attempt, or the
      error of the wait when there is none.

    The engine runs its rounds in a goroutine raced against a timer.  Here
    it is run on one thread against a virtual clock in milliseconds: remote
    calls return at once and only the sleeps take time, and a round is made
    exactly when it would start before the timeout.  Both call sites return
    a result whenever they return no error, so the engine's count of
    refreshes that find nothing is left out. *)

(** Ten seconds. *)
Definition maxWait : nat := 10 * 1000.

(** The pause before the next refresh: the previous one doubled, raised to
    [MinTimeout] and otherwise capped at ten seconds. *)
Definition nextWait (minTimeout wait : nat) : nat :=
  let w := 2 * wait in
  if w <? minTimeout then minTimeout
  else if maxWait <? w then maxWait
  else w.

(** The first refresh is not delayed; the pause then starts from 100ms. *)
Definition firstWait (wait : nat) : nat := if wait =? 0 then 100 else wait.

(** The time at which refresh number [n] (from 0) of a loop entered at
    [clock] with the pause [wait] is made, if the loop gets that far. *)
Fixpoint refreshTime (minTimeout clock wait n : nat) : nat :=
  match n with
  | O => clock + wait
  | S m => refreshTime minTimeout (clock + wait) (nextWait minTimeout (firstWait wait)) m
  end.

Section Engine.
Context {St Res : Type}.

(** The fields of [StateChangeConf] the resource code fills in.  [Refresh]
    returns [(result, state, nil)] or [(nil, "", err)]. *)
Record StateChangeConf : Type := {
  Pending : list string;
  Target : list string;
  Refresh : St -> Result (Res * string) * St;
  conf_Timeout : nat;
  MinTimeout : nat;
  Delay : nat
}.

(** [st] is one of the states [l]. *)
Definition state_in (st : string) (l : list string) : bool :=
  existsb (String.eqb st) l.

(** The refresh loop of [WaitForState], entered at time [clock] with the
    pause [wait] still to be slept.  The wait is over as soon as the
    timeout has elapsed when the pause ends; an error from [Refresh] ends
    it with that error; a state in [Target] ends it with the result; a
    state in [Pending] goes round again; any other state is an
    [UnexpectedStateError] when [Pending] is not empty.  [fuel] bounds the
    number of rounds and is never what ends the loop
    (see [refreshLoop_fuel]). *)
Fixpoint refreshLoop (conf : StateChangeConf) (fuel clock wait : nat)
    (last : string) (s : St) : Result Res * St :=
  if conf_Timeout conf <=? clock + wait then
    (Err (TimeoutError last (Target conf)), s)
  else
    match fuel with
    | O => (Err (TimeoutError last (Target conf)), s)
    | S fuel' =>
        match Refresh conf s with
        | (Err e, s') => (Err e, s')
        | (Ok (res, st), s') =>
            if state_in st (Target conf) then (Ok res, s')
            else if state_in st (Pending conf) || (length (Pending conf) =? 0) then
              refreshLoop conf fuel' (clock + wait)
              (nextWait (MinTimeout conf) (firstWait wait)) st s'
            else (Err (UnexpectedStateError st (Target conf)), s')
        end
    end.

(** [conf.WaitForState()] *)
Definition WaitForState (conf : StateChangeConf) (s : St) : Result Res * St :=
  refreshLoop conf (conf_Timeout conf) (Delay conf) 0 "" s.

(** The state after [n] refreshes. *)
Fixpoint refreshed (conf : StateChangeConf) (n : nat) (s : St) : St :=
  match n with
  | O => s
  | S m => refreshed conf m (snd (Refresh conf s))
  end.
End Engine.

Arguments StateChangeConf : clear implicits.

(** [resource.RetryError], built by [RetryableError] and [NonRetryableError]. *)
Record RetryError : Type := {
  RetryErr : error;
  Retryable : bool
}.

Definition RetryableError (err : error) : option RetryError :=
  Some {| RetryErr := err; Retryable := true |}.

Definition NonRetryableError (err : error) : option RetryError :=
  Some {| RetryErr := err; Retryable := false |}.

Section Retry.
Context {St : Type}.

(** The configuration [Retry] waits on.  Its state carries [resultErr], the
    error of the latest attempt, next to the state of the attempts. *)
Definition retryConf (timeout : nat) (f : St -> option RetryError * St)
  : StateChangeConf (option error * St) nat :=
  {| Pending := ["retryableerror"];
     Target := ["success"];
     conf_Timeout := timeout;
     MinTimeout := 500;
     Delay := 0;
     Refresh := fun '(_, s) =>
       let '(rerr, s') := f s in
       match rerr with
       | None => (Ok (42, "success"), (None, s'))
       | Some re =>
           if Retryable re then (Ok (42, "retryableerror"), (Some (RetryErr re), s'))
           else (Err (RetryErr re), (Some (RetryErr re), s'))
       end |}.

(** [resource.Retry(timeout, f)]: [f] is tried until it returns [nil] or a
    non-retryable error, or until the timeout.  The error of the latest
    attempt takes precedence over the error of the wait. *)
Definition Retry (timeout : nat) (f : St -> option RetryError * St) (s : St)
  : option error * St :=
  let '(r, (resultErr, s')) := WaitForState (retryConf timeout f) (None, s) in
  match resultErr with
  | None => (match r with Ok _ => None | Err waitErr => Some waitErr end, s')
  | Some e => (Some e, s')
  end.
End Retry.

(** ** The resource operations *)

(** The loops [for key, val := range att { labels[key] = val.(string) }]:
    every entry of the attribute map is stored in a map made empty. *)
Definition copyLabels (att : gmap string string) : gmap string string :=
  map_fold (fun key val acc => <[key := val]> acc) ∅ att.

(** The zero [strfmt.DateTime]. *)
Definition zeroDateTime : DateTime := {| DateTime_String := "0001-01-01T00:00:00.000Z" |}.

Section Resource.
(** The two constants of the provider that the create wait uses; they are
    declared in another file of the package. *)
Variables (retryTimeout requestDelay : nat).

(** *** Read *)

(** The function [resourceProjectRead] retries: one get, then either the
    classification of its error or the copy of the payload into the data. *)
Definition readAttempt (s : ResourceData * World)
  : option RetryError * (ResourceData * World) :=
  let '(d, w) := s in
  match GetProject (Id d) w with
  | (Err err, w') =>
      match err with
      | NetError timeout temporary msg =>
          if timeout || temporary then
            (RetryableError
               (Errorf ("network issue occured while trying to read project '"
                        +:+ Id d +:+ "': " +:+ Error err)), (d, w'))
          else (NonRetryableError err, (d, w'))
      | GetProjectConflict _ | GetProjectUnauthorized _ =>
          (NonRetryableError err, (d, w'))
      | GetProjectDefault code _ =>
          if (code =? StatusForbidden)%Z || (code =? StatusNotFound)%Z then
            (None, (SetId "" d, w'))
          else (NonRetryableError err, (d, w'))
      | _ => (NonRetryableError err, (d, w'))
      end
  | (Ok r, w') =>
      match Set_ "name" (VString (Name r)) d with
      | (Some err, d1) => (NonRetryableError err, (d1, w'))
      | (None, d1) =>
      match Set_ "labels" (VMap (default ∅ (Labels r))) d1 with
      | (Some err, d2) => (NonRetryableError err, (d2, w'))
      | (None, d2) =>
      match Set_ "status" (VString (Status r)) d2 with
      | (Some err, d3) => (NonRetryableError err, (d3, w'))
      | (None, d3) =>
      match Set_ "creation_timestamp"
              (VString (DateTime_String (CreationTimestamp r))) d3 with
      | (Some err, d4) => (NonRetryableError err, (d4, w'))
      | (None, d4) =>
      match Set_ "deletion_timestamp"
              (VString (DateTime_String (DeletionTimestamp r))) d4 with
      | (Some err, d5) => (NonRetryableError err, (d5, w'))
      | (None, d5) => (None, (d5, w'))
      end end end end end
  end.

Definition resourceProjectRead (d : ResourceData) (w : World)
  : option error * ResourceData * World :=
  let '(err, (d', w')) := Retry (Timeout TimeoutRead d) readAttempt (d, w) in
  (err, d', w').

(** *** Create *)

Definition createBody (d : ResourceData) : CreateBody :=
  let '(l, ok) := GetOk "labels" d in
  {| cb_Name := as_string (Get "name" d);
     cb_Labels := if ok then Some (copyLabels (as_map l)) else None |}.

(** The [Refresh] function of the create wait. *)
Definition createRefresh (id : string) (w : World) : Result (Project * string) * World :=
  match GetProject id w with
  | (Err err, w') => (Err err, w')
  | (Ok r, w') => (Ok (r, Status r), w')
  end.

Definition createStateConf (id : string) (d : ResourceData) : StateChangeConf World Project :=
  {| Pending := [projectInactive];
     Target := [projectActive];
     Refresh := createRefresh id;
     conf_Timeout := Timeout TimeoutCreate d;
     MinTimeout := retryTimeout;
     Delay := requestDelay |}.

Definition resourceProjectCreate (d : ResourceData) (w : World)
  : option error * ResourceData * World :=
  match CreateProject (createBody d) w with
  | (Err err, w1) =>
      (Some (Errorf ("error when creating a project: " +:+ Error err)), d, w1)
  | (Ok r, w1) =>
      let id := ID r in
      match WaitForState (createStateConf id d) w1 with
      | (Err err, w2) =>
          (Some (Errorf ("error while waiting for project '" +:+ id
                         +:+ "' to be created: " +:+ Error err)), d, w2)
      | (Ok _, w2) => resourceProjectRead (SetId id d) w2
      end
  end.

(** *** Update *)

(** The body of the update request, [p.Body]. *)
Definition updateBody (d : ResourceData) : Project :=
  let nm := as_string (Get "name" d) in
  let nm := if HasChange "name" d then as_string (Get "name" d) else nm in
  {| ID := ""; Name := nm;
     Labels := if HasChange "labels" d
               then Some (copyLabels (as_map (Get "labels" d))) else None;
     Status := "";
     CreationTimestamp := zeroDateTime; DeletionTimestamp := zeroDateTime |}.

Definition resourceProjectUpdate (d : ResourceData) (w : World)
  : option error * ResourceData * World :=
  match UpdateProject (Id d) (updateBody d) w with
  | (Some err, w1) =>
      (Some (Errorf ("unable to update project '" +:+ Id d +:+ "': " +:+ Error err)), d, w1)
  | (None, w1) => resourceProjectRead d w1
  end.

(** *** Delete *)

(** One round of the wait for the deletion. *)
Definition deleteAttempt (d : ResourceData) (w : World) : option RetryError * World :=
  match GetProject (Id d) w with
  | (Err err, w') =>
      match err with
      | GetProjectDefault code _ =>
          if (code =? StatusForbidden)%Z || (code =? StatusNotFound)%Z then (None, w')
          else (NonRetryableError err, w')
      | _ => (NonRetryableError err, w')
      end
  | (Ok r, w') =>
      (RetryableError
         (Errorf ("project '" +:+ Id d +:+ "' still exists, currently in '"
                  +:+ Status r +:+ "' state")), w')
  end.

Definition resourceProjectDelete (d : ResourceData) (w : World)
  : option error * ResourceData * World :=
  match DeleteProject (Id d) w with
  | (Some err, w1) =>
      (Some (Errorf ("unable to delete project '" +:+ Id d +:+ "': " +:+ Error err)), d, w1)
  | (None, w1) =>
      let '(err, w2) := Retry (Timeout TimeoutDelete d) (deleteAttempt d) w1 in
      match err with
      | Some err => (Some err, d, w2)
      | None => (None, d, w2)
      end
  end.

End Resource.

(** ** Vocabulary of the statements *)

(** A refresh from [s] succeeds with a state that is pending and not a target. *)
Definition pendingAt {St Res : Type} (conf : StateChangeConf St Res) (s : St) : Prop :=
  exists res st,
    fst (Refresh conf s) = Ok (res, st)
    /\ state_in st (Target conf) = false
    /\ state_in st (Pending conf) = true.

(** The state after [n] attempts of a retried function. *)
Fixpoint attempted {St : Type} (f : St -> option RetryError * St) (n : nat) (s : St) : St :=
  match n with
  | O => s
  | S m => attempted f m (snd (f s))
  end.

(** The time of attempt number [n] of [Retry]: no initial delay, pauses of at
    least 500ms. *)
Definition retryTime (n : nat) : nat := refreshTime 500 0 0 n.

(** The world after [k] more get calls for [id]. *)
Fixpoint afterGets (id : string) (k : nat) (w : World) : World :=
  match k with
  | O => w
  | S m => afterGets id m (snd (GetProject id w))
  end.


(** The get answers that [Read] and the deletion wait take for "the project is
    absent": the default response with status 403 or 404. *)
Definition isAbsent (r : Result Project) : bool :=
  match r with
  | Err (GetProjectDefault code _) =>
      (code =? StatusForbidden)%Z || (code =? StatusNotFound)%Z
  | _ => false
  end.

(** The get answers that [Read] retries: a [net.Error] that is a timeout or
    temporary. *)
Definition isTransient (r : Result Project) : bool :=
  match r with
  | Err (NetError timeout temporary _) => timeout || temporary
  | _ => false
  end.

(** What one attempt of [Read] returns to the caller when it is the last one. *)
Definition readOnce (d : ResourceData) (w : World) : option error * ResourceData * World :=
  let '(r, (d', w')) := readAttempt (d, w) in
  (match r with Some re => Some (RetryErr re) | None => None end, d', w').

(** The read-only attributes and the echoed name and labels, copied from a
    payload: what the five [Set] calls of [Read] leave in the data. *)
Definition materialized (r : Project) (d : ResourceData) : ResourceData :=
  with_attrs {| name := Name r; labels := default ∅ (Labels r); status := Status r;
                creation_timestamp := DateTime_String (CreationTimestamp r);
                deletion_timestamp := DateTime_String (DeletionTimestamp r) |} d.

(** Two get answers are the same to the resource when they are equal or both
    mean "absent", whichever of 403 and 404 each carries. *)
Definition sameAnswer (r1 r2 : Result Project) : Prop :=
  r1 = r2 \/ (isAbsent r1 = true /\ isAbsent r2 = true).

(** Two remote sides that differ at most in such answers. *)
Definition alike (w1 w2 : World) : Prop :=
  onCreate w1 = onCreate w2
  /\ onUpdate w1 = onUpdate w2
  /\ onDelete w1 = onDelete w2
  /\ gets w1 = gets w2
  /\ sent w1 = sent w2
  /\ forall n, sameAnswer (onGet w1 n) (onGet w2 n).

(** The get requests. *)
Definition isGetReq (q : Request) : bool :=
  match q with GetProjectReq _ => true | _ => false end.

(** ** Sample inputs *)

(** A remote side that answers the get calls from a script and then keeps
    giving [rest]; no call has been made yet. *)
Definition scripted (c : Result Project) (script : list (Result Project))
    (rest : Result Project) (u dl : option error) : World :=
  {| onCreate := c; onGet := fun n => nth n script rest;
     onUpdate := u; onDelete := dl; gets := 0; sent := [] |}.

(** The project ["p-1"] as the remote side reports it in state [st]. *)
Definition team_a (st : string) : Project :=
  {| ID := "p-1"; Name := "team-a"; Labels := Some {[ "env" := "prod" ]}; Status := st;
     CreationTimestamp := {| DateTime_String := "2020-03-01T10:00:00.000Z" |};
     DeletionTimestamp := zeroDateTime |}.

(** No prior state. *)
Definition no_attrs : Attrs :=
  {| name := ""; labels := ∅; status := ""; creation_timestamp := "";
     deletion_timestamp := "" |}.

(** The configured attributes: a name and one label. *)
Definition team_a_attrs : Attrs :=
  {| name := "team-a"; labels := {[ "env" := "prod" ]}; status := "";
     creation_timestamp := ""; deletion_timestamp := "" |}.

(** The data of a project still to be created, with timeouts of 20s. *)
Definition planned : ResourceData :=
  {| rd_id := ""; rd_old := no_attrs; rd_new := team_a_attrs;
     rd_timeouts := fun _ => 20 * 1000 |}.

(** The data of the project once it is tracked as ["p-1"]. *)
Definition tracked : ResourceData := SetId "p-1" planned.

(** A transport timeout, and the default responses with status 404 and 403. *)
Definition io_timeout : error := NetError true false "i/o timeout".
Definition not_found : error := GetProjectDefault 404 "not found".
Definition forbidden : error := GetProjectDefault 403 "forbidden".

(** One transient transport error, then the project is there and active. *)
Definition flaky_then_active : World :=
  scripted (Ok (team_a "Inactive")) [Err io_timeout] (Ok (team_a "Active")) None None.

(** One transient transport error, then the project is gone. *)
Definition flaky_then_gone : World :=
  scripted (Ok (team_a "Inactive")) [Err io_timeout] (Err not_found) None None.

(** The project is gone. *)
Definition gone : World :=
  scripted (Ok (team_a "Inactive")) [] (Err not_found) None None.

(** The caller may not see the project: the typed 401 response, whose text
    is the one the generated client prints. *)
Definition unauthorized : error :=
  GetProjectUnauthorized "[GET /api/v1/projects/{project_id}][401] getProjectUnauthorized".

(** Every get is answered with it. *)
Definition no_access : World :=
  scripted (Ok (team_a "Inactive")) [] (Err unauthorized) None None.

(** The remote side refuses the update: the project does not exist. *)
Definition update_refused : World :=
  scripted (Ok (team_a "Inactive")) [] (Ok (team_a "Active"))
    (Some (OtherError "[PATCH /api/v1/projects/{project_id}][404] updateProject default"))
    None.

(** The tracked project with the label [b] added to a prior label [a], the
    name as it was. *)
Definition relabelled : ResourceData :=
  {| rd_id := "p-1";
     rd_old := {| name := "team-a"; labels := {[ "a" := "1" ]}; status := "Active";
                  creation_timestamp := "2020-03-01T10:00:00.000Z";
                  deletion_timestamp := "0001-01-01T00:00:00.000Z" |};
     rd_new := {| name := "team-a"; labels := <[ "b" := "2" ]> {[ "a" := "1" ]};
                  status := "Active";
                  creation_timestamp := "2020-03-01T10:00:00.000Z";
                  deletion_timestamp := "0001-01-01T00:00:00.000Z" |};
     rd_timeouts := fun _ => 20 * 1000 |}.

(** The remote side refuses the creation. *)
Definition create_refused : World :=
  scripted (Err (OtherError "[POST /api/v1/projects][409] createProjectConflict"))
    [] (Err not_found) None None.


(** The project is seen inactive twice and active from then on. *)
Definition slow_start : World :=
  scripted (Ok (team_a "Inactive")) [Ok (team_a "Inactive"); Ok (team_a "Inactive")]
    (Ok (team_a "Active")) None None.

(** The project stays inactive. *)
Definition never_active : World :=
  scripted (Ok (team_a "Inactive")) [] (Ok (team_a "Inactive")) None None.

(** The project is still seen twice after the delete call, then it is gone. *)
Definition lingering : World :=
  scripted (Ok (team_a "Inactive")) [Ok (team_a "Active"); Ok (team_a "Active")]
    (Err not_found) None None.

(** The project never goes away. *)
Definition never_gone : World :=
  scripted (Ok (team_a "Inactive")) [] (Ok (team_a "Active")) None None.

(** The project is hidden from the caller. *)
Definition hidden : World :=
  scripted (Ok (team_a "Inactive")) [] (Err forbidden) None None.

(** The default response with status 500. *)
Definition server_error : error := GetProjectDefault 500 "internal server error".

(** One transient transport error, then the remote side fails. *)
Definition flaky_then_broken : World :=
  scripted (Ok (team_a "Inactive")) [Err io_timeout] (Err server_error) None None.

(** The remote side cannot be reached. *)
Definition unreachable : World :=
  scripted (Ok (team_a "Inactive")) [] (Err io_timeout) None None.

(** The project is still seen once after the delete call, then the remote
    side fails. *)
Definition lingering_then_broken : World :=
  scripted (Ok (team_a "Inactive")) [Ok (team_a "Active")] (Err server_error) None None.

(** The project is seen inactive once and then in a state the resource does
    not know. *)
Definition terminating : World :=
  scripted (Ok (team_a "Inactive")) [Ok (team_a "Inactive")] (Ok (team_a "Terminating"))
    None None.

(** The project is seen inactive once and is gone then. *)
Definition vanishing : World :=
  scripted (Ok (team_a "Inactive")) [Ok (team_a "Inactive")] (Err not_found) None None.

(** The project is seen active once and is gone then. *)
Definition active_then_gone : World :=
  scripted (Ok (team_a "Inactive")) [Ok (team_a "Active")] (Err not_found) None None.

(** The project is seen active once and may not be seen then. *)
Definition active_then_no_access : World :=
  scripted (Ok (team_a "Inactive")) [Ok (team_a "Active")] (Err unauthorized) None None.

(** The remote side reports the project under another name. *)
Definition renamed_remotely : World :=
  scripted (Ok (team_a "Inactive")) []
    (Ok {| ID := "p-1"; Name := "team-b"; Labels := None; Status := "Active";
           CreationTimestamp := {| DateTime_String := "2020-03-01T10:00:00.000Z" |};
           DeletionTimestamp := zeroDateTime |})
    None None.

(** ** The wait engine: timing and termination *)

Lemma firstWait_pos wait : 0 < firstWait wait.
Proof. unfold firstWait. destruct (Nat.eqb_spec wait 0); lia. Qed.

Lemma nextWait_pos minTimeout wait : 0 < wait -> 0 < nextWait minTimeout wait.
Proof.
  intros Hw. unfold nextWait, maxWait.
  destruct (Nat.ltb_spec (2 * wait) minTimeout); [lia|].
  destruct (Nat.ltb_spec (10 * 1000) (2 * wait)); lia.
Qed.

Lemma nextWait_first_pos minTimeout wait : 0 < nextWait minTimeout (firstWait wait).
Proof. apply nextWait_pos, firstWait_pos. Qed.

Lemma nextWait_ge_min minTimeout wait :
  minTimeout <= maxWait -> minTimeout <= nextWait minTimeout wait.
Proof.
  intros Hm. unfold nextWait.
  destruct (Nat.ltb_spec (2 * wait) minTimeout); [lia|].
  destruct (Nat.ltb_spec maxWait (2 * wait)); lia.
Qed.

Lemma refreshTime_ge minTimeout n : forall clock wait,
  clock + wait + n <= refreshTime minTimeout clock wait n.
Proof.
  induction n as [|n IH]; intros clock wait; cbn [refreshTime]; [lia|].
  specialize (IH (clock + wait) (nextWait minTimeout (firstWait wait))).
  pose proof (nextWait_first_pos minTimeout wait). lia.
Qed.

Lemma refreshTime_mono minTimeout n : forall clock wait,
  refreshTime minTimeout clock wait n < refreshTime minTimeout clock wait (S n).
Proof.
  induction n as [|n IH]; intros clock wait.
  - cbn [refreshTime]. pose proof (nextWait_first_pos minTimeout wait). lia.
  - change (refreshTime minTimeout (clock + wait)
              (nextWait minTimeout (firstWait wait)) n
            < refreshTime minTimeout (clock + wait)
              (nextWait minTimeout (firstWait wait)) (S n)).
    apply IH.
Qed.

Lemma refreshTime_le minTimeout clock wait i n :
  i <= n -> refreshTime minTimeout clock wait i <= refreshTime minTimeout clock wait n.
Proof.
  induction 1 as [|n Hle IH]; [lia|].
  pose proof (refreshTime_mono minTimeout n clock wait). lia.
Qed.

(** Among the first [N] indices, either all satisfy [P] or there is a first
    one that does not. *)
Lemma first_failure (P : nat -> bool) N :
  (forall i, i < N -> P i = true)
  \/ (exists n, n < N /\ (forall i, i < n -> P i = true) /\ P n = false).
Proof.
  induction N as [|N [Hall|(n & Hn & Hbefore & Hfail)]].
  - left. intros; lia.
  - destruct (P N) eqn:HP.
    + left. intros i Hi. destruct (decide (i = N)) as [->|]; [exact HP | apply Hall; lia].
    + right. exists N. auto.
  - right. exists n. auto.
Qed.

(** Every timeout is reached: there is a first round that would start at or
    after it. *)
Lemma first_round_after minTimeout clock wait timeout :
  exists k,
    timeout <= refreshTime minTimeout clock wait k
    /\ forall j, j < k -> refreshTime minTimeout clock wait j < timeout.
Proof.
  destruct (first_failure (fun j => refreshTime minTimeout clock wait j <? timeout)
              (S timeout)) as [Hall|(k & _ & Hbefore & Hk)].
  - specialize (Hall timeout). apply Nat.ltb_lt in Hall; [|lia].
    pose proof (refreshTime_ge minTimeout timeout clock wait). lia.
  - exists k. split; [apply Nat.ltb_ge; exact Hk|].
    intros j Hj. apply Nat.ltb_lt, Hbefore, Hj.
Qed.

Section EngineFacts.
Context {St Res : Type}.
Implicit Types (conf : StateChangeConf St Res) (s : St).

Lemma refreshLoop_unfold conf fuel clock wait last s :
  refreshLoop conf fuel clock wait last s =
  if conf_Timeout conf <=? clock + wait then
    (Err (TimeoutError last (Target conf)), s)
  else
    match fuel with
    | O => (Err (TimeoutError last (Target conf)), s)
    | S fuel' =>
        match Refresh conf s with
        | (Err e, s') => (Err e, s')
        | (Ok (res, st), s') =>
            if state_in st (Target conf) then (Ok res, s')
            else if state_in st (Pending conf) || (length (Pending conf) =? 0) then
              refreshLoop conf fuel' (clock + wait)
                (nextWait (MinTimeout conf) (firstWait wait)) st s'
            else (Err (UnexpectedStateError st (Target conf)), s')
        end
    end.
Proof. destruct fuel; reflexivity. Qed.

Lemma refreshed_S conf n : forall s,
  refreshed conf (S n) s = snd (Refresh conf (refreshed conf n s)).
Proof.
  induction n as [|n IH]; intros s; [reflexivity|].
  change (refreshed conf (S (S n)) s) with (refreshed conf (S n) (snd (Refresh conf s))).
  rewrite IH. reflexivity.
Qed.

(** The fuel does not matter once it covers the time left: a round is only
    entered before the timeout and moves the clock on. *)
Lemma refreshLoop_fuel conf : forall fuel1 fuel2 clock wait last s,
  conf_Timeout conf - (clock + wait) <= fuel1 ->
  conf_Timeout conf - (clock + wait) <= fuel2 ->
  refreshLoop conf fuel1 clock wait last s = refreshLoop conf fuel2 clock wait last s.
Proof.
  induction fuel1 as [|fuel1 IH]; intros fuel2 clock wait last s H1 H2;
    rewrite (refreshLoop_unfold conf _ clock), (refreshLoop_unfold conf fuel2 clock);
    destruct (Nat.leb_spec (conf_Timeout conf) (clock + wait)) as [Hle|Hlt];
    try reflexivity; try lia.
  destruct fuel2 as [|fuel2]; [lia|].
  destruct (Refresh conf s) as [[[res st]|e] s']; [|reflexivity].
  destruct (state_in st (Target conf)); [reflexivity|].
  destruct (state_in st (Pending conf) || (length (Pending conf) =? 0)); [|reflexivity].
  pose proof (nextWait_first_pos (MinTimeout conf) wait).
  apply IH; lia.
Qed.

(** Pending rounds made in time are skipped over. *)
Lemma refreshLoop_skip conf n : forall fuel clock wait last s,
  (forall i, i < n -> pendingAt conf (refreshed conf i s)) ->
  (forall j, j < n -> refreshTime (MinTimeout conf) clock wait j < conf_Timeout conf) ->
  n <= fuel ->
  exists clock' wait' last',
    (forall m, refreshTime (MinTimeout conf) clock' wait' m
               = refreshTime (MinTimeout conf) clock wait (n + m))
    /\ (n = 0 -> last' = last)
    /\ (0 < n -> state_in last' (Pending conf) = true)
    /\ refreshLoop conf fuel clock wait last s
       = refreshLoop conf (fuel - n) clock' wait' last' (refreshed conf n s).
Proof.
  induction n as [|n IH]; intros fuel clock wait last s Hp Ht Hf.
  - exists clock, wait, last. cbn [refreshed].
    replace (fuel - 0) with fuel by lia.
    repeat split; auto. intros; lia.
  - destruct fuel as [|fuel]; [lia|].
    pose proof (Ht 0) as Ht0. cbn [refreshTime] in Ht0.
    destruct (Hp 0) as (res & st & Hr & Htg & Hpd); [lia|].
    cbn [refreshed] in Hr.
    destruct (IH fuel (clock + wait) (nextWait (MinTimeout conf) (firstWait wait))
                st (snd (Refresh conf s))) as (c' & w' & l' & Hc & H0 & H1 & Heq).
    + intros i Hi. apply (Hp (S i)). lia.
    + intros j Hj. apply (Ht (S j)). lia.
    + lia.
    + exists c', w', l'. split; [intros m; rewrite Hc; reflexivity|].
      split; [intros; lia|].
      split.
      { intros _. destruct n as [|n]; [rewrite H0 by reflexivity; exact Hpd | apply H1; lia]. }
      rewrite refreshLoop_unfold. cbn [refreshed].
      destruct (Nat.leb_spec (conf_Timeout conf) (clock + wait)); [lia|].
      destruct (Refresh conf s) as [r s'] eqn:HR. cbn [fst snd] in *. subst r.
      rewrite Htg, Hpd. cbn [orb].
      replace (S fuel - S n) with (fuel - n) by lia. exact Heq.
Qed.

Lemma refreshTime_before minTimeout clock wait n bound :
  refreshTime minTimeout clock wait n < bound ->
  forall j, j < n -> refreshTime minTimeout clock wait j < bound.
Proof.
  intros Hn j Hj.
  pose proof (refreshTime_le minTimeout clock wait j n). lia.
Qed.

(** After [n] pending rounds, a refresh that reports a target state in time
    ends the wait with its result. *)
Lemma WaitForState_converges conf n s res st :
  (forall i, i < n -> pendingAt conf (refreshed conf i s)) ->
  fst (Refresh conf (refreshed conf n s)) = Ok (res, st) ->
  state_in st (Target conf) = true ->
  refreshTime (MinTimeout conf) (Delay conf) 0 n < conf_Timeout conf ->
  WaitForState conf s = (Ok res, refreshed conf (S n) s).
Proof.
  intros Hp Hr Htg Ht. unfold WaitForState.
  pose proof (refreshTime_ge (MinTimeout conf) n (Delay conf) 0) as Hge.
  destruct (refreshLoop_skip conf n (conf_Timeout conf) (Delay conf) 0 "" s Hp
              (refreshTime_before _ _ _ _ _ Ht))
    as (c' & w' & l' & Hc & _ & _ & Heq); [lia|].
  specialize (Hc 0). cbn [refreshTime] in Hc. rewrite Nat.add_0_r in Hc.
  rewrite Heq, refreshLoop_unfold.
  destruct (Nat.leb_spec (conf_Timeout conf) (c' + w')); [lia|].
  destruct (conf_Timeout conf - n) as [|fuel] eqn:Hfuel; [lia|].
  rewrite refreshed_S.
  destruct (Refresh conf (refreshed conf n s)) as [r s']. cbn [fst snd] in *. subst r.
  rewrite Htg. reflexivity.
Qed.

(** After [n] pending rounds, an error from the refresh made in time ends the
    wait with that error. *)
Lemma WaitForState_aborts conf n s e :
  (forall i, i < n -> pendingAt conf (refreshed conf i s)) ->
  fst (Refresh conf (refreshed conf n s)) = Err e ->
  refreshTime (MinTimeout conf) (Delay conf) 0 n < conf_Timeout conf ->
  WaitForState conf s = (Err e, refreshed conf (S n) s).
Proof.
  intros Hp Hr Ht. unfold WaitForState.
  pose proof (refreshTime_ge (MinTimeout conf) n (Delay conf) 0) as Hge.
  destruct (refreshLoop_skip conf n (conf_Timeout conf) (Delay conf) 0 "" s Hp
              (refreshTime_before _ _ _ _ _ Ht))
    as (c' & w' & l' & Hc & _ & _ & Heq); [lia|].
  specialize (Hc 0). cbn [refreshTime] in Hc. rewrite Nat.add_0_r in Hc.
  rewrite Heq, refreshLoop_unfold.
  destruct (Nat.leb_spec (conf_Timeout conf) (c' + w')); [lia|].
  destruct (conf_Timeout conf - n) as [|fuel] eqn:Hfuel; [lia|].
  rewrite refreshed_S.
  destruct (Refresh conf (refreshed conf n s)) as [r s']. cbn [fst snd] in *. subst r.
  reflexivity.
Qed.

(** After [k] pending rounds made in time, the wait ends by the timeout when
    round [k] would start at or after it. *)
Lemma WaitForState_times_out_at conf k s :
  (forall i, i < k -> pendingAt conf (refreshed conf i s)) ->
  (forall j, j < k ->
     refreshTime (MinTimeout conf) (Delay conf) 0 j < conf_Timeout conf) ->
  conf_Timeout conf <= refreshTime (MinTimeout conf) (Delay conf) 0 k ->
  exists last,
    WaitForState conf s = (Err (TimeoutError last (Target conf)), refreshed conf k s)
    /\ (k = 0 -> last = "")
    /\ (0 < k -> state_in last (Pending conf) = true).
Proof.
  intros Hp Hj Hk. unfold WaitForState.
  assert (Hfuel : k <= conf_Timeout conf).
  { destruct k as [|k]; [lia|].
    pose proof (Hj k) as Hlt.
    pose proof (refreshTime_ge (MinTimeout conf) k (Delay conf) 0). lia. }
  destruct (refreshLoop_skip conf k (conf_Timeout conf) (Delay conf) 0 "" s Hp Hj Hfuel)
    as (c' & w' & l' & Hc & H0 & H1 & Heq).
  specialize (Hc 0). cbn [refreshTime] in Hc. rewrite Nat.add_0_r in Hc.
  exists l'. rewrite Heq, refreshLoop_unfold.
  destruct (Nat.leb_spec (conf_Timeout conf) (c' + w')); [|lia].
  auto.
Qed.

(** A wait whose refreshes are pending whenever they are made before the
    timeout ends by the timeout, at the first round that would start at or
    after it, with the state seen last. *)
Lemma WaitForState_times_out conf s :
  (forall i, refreshTime (MinTimeout conf) (Delay conf) 0 i < conf_Timeout conf ->
     pendingAt conf (refreshed conf i s)) ->
  exists k last,
    WaitForState conf s = (Err (TimeoutError last (Target conf)), refreshed conf k s)
    /\ conf_Timeout conf <= refreshTime (MinTimeout conf) (Delay conf) 0 k
    /\ (forall j, j < k ->
          refreshTime (MinTimeout conf) (Delay conf) 0 j < conf_Timeout conf)
    /\ (k = 0 -> last = "")
    /\ (0 < k -> state_in last (Pending conf) = true).
Proof.
  intros Hp.
  destruct (first_round_after (MinTimeout conf) (Delay conf) 0 (conf_Timeout conf))
    as (k & Hk & Hj).
  destruct (WaitForState_times_out_at conf k s) as (last & Heq & H0 & H1); auto.
  exists k, last. auto.
Qed.

(** The state a wait ends in is the state after some number of refreshes. *)
Lemma refreshLoop_final conf : forall fuel clock wait last s,
  exists k, snd (refreshLoop conf fuel clock wait last s) = refreshed conf k s.
Proof.
  induction fuel as [|fuel IH]; intros clock wait last s; rewrite refreshLoop_unfold;
    destruct (conf_Timeout conf <=? clock + wait); try (exists 0; reflexivity).
  destruct (Refresh conf s) as [[[res st]|e] s'] eqn:HR.
  - destruct (state_in st (Target conf)).
    + exists 1. cbn [refreshed]. rewrite HR. reflexivity.
    + destruct (state_in st (Pending conf) || (length (Pending conf) =? 0)).
      * destruct (IH (clock + wait) (nextWait (MinTimeout conf) (firstWait wait)) st s')
          as [k Hk].
        exists (S k). cbn [refreshed]. rewrite HR. exact Hk.
      * exists 1. cbn [refreshed]. rewrite HR. reflexivity.
  - exists 1. cbn [refreshed]. rewrite HR. reflexivity.
Qed.

(** A wait only succeeds on a refresh that reported a target state. *)
Lemma refreshLoop_Ok_inv conf : forall fuel clock wait last s res s',
  refreshLoop conf fuel clock wait last s = (Ok res, s') ->
  exists n st,
    fst (Refresh conf (refreshed conf n s)) = Ok (res, st)
    /\ state_in st (Target conf) = true
    /\ s' = refreshed conf (S n) s.
Proof.
  induction fuel as [|fuel IH]; intros clock wait last s res s1; rewrite refreshLoop_unfold;
    destruct (conf_Timeout conf <=? clock + wait); try discriminate.
  destruct (Refresh conf s) as [[[res0 st]|e] s'] eqn:HR; [|discriminate].
  destruct (state_in st (Target conf)) eqn:Htg.
  - intros [= <- <-]. exists 0, st. cbn [refreshed]. rewrite HR. auto.
  - destruct (state_in st (Pending conf) || (length (Pending conf) =? 0)); [|discriminate].
    intros Heq. destruct (IH _ _ _ _ _ _ Heq) as (n & st' & Hr & Ht & Hs).
    exists (S n), st'. cbn [refreshed]. rewrite HR. cbn [snd].
    repeat split; auto.
Qed.

(** Two waits whose refreshes answer alike, from states related by [R], end
    alike. *)
Lemma refreshLoop_sim conf (R : St -> St -> Prop) :
  (forall s1 s2, R s1 s2 ->
     fst (Refresh conf s1) = fst (Refresh conf s2)
     /\ R (snd (Refresh conf s1)) (snd (Refresh conf s2))) ->
  forall fuel clock wait last s1 s2, R s1 s2 ->
    fst (refreshLoop conf fuel clock wait last s1)
      = fst (refreshLoop conf fuel clock wait last s2)
    /\ R (snd (refreshLoop conf fuel clock wait last s1))
         (snd (refreshLoop conf fuel clock wait last s2)).
Proof.
  intros Hstep.
  induction fuel as [|fuel IH]; intros clock wait last s1 s2 HR;
    rewrite !(refreshLoop_unfold conf _ clock);
    destruct (conf_Timeout conf <=? clock + wait); try (split; [reflexivity | exact HR]).
  destruct (Hstep _ _ HR) as [Hfst Hsnd].
  destruct (Refresh conf s1) as [r1 s1'], (Refresh conf s2) as [r2 s2'].
  cbn [fst snd] in *. subst r2.
  destruct r1 as [[res st]|e]; [|split; [reflexivity | exact Hsnd]].
  destruct (state_in st (Target conf)); [split; [reflexivity | exact Hsnd]|].
  destruct (state_in st (Pending conf) || (length (Pending conf) =? 0));
    [|split; [reflexivity | exact Hsnd]].
  apply IH. exact Hsnd.
Qed.
End EngineFacts.

(** ** [Retry] *)

Section RetryFacts.
Context {St : Type}.
Implicit Types (f : St -> option RetryError * St) (s : St).

Lemma attempted_S f n : forall s,
  attempted f (S n) s = snd (f (attempted f n s)).
Proof.
  induction n as [|n IH]; intros s; [reflexivity|].
  change (attempted f (S (S n)) s) with (attempted f (S n) (snd (f s))).
  rewrite IH. reflexivity.
Qed.

Lemma retry_refreshed timeout f n : forall e s,
  snd (refreshed (retryConf timeout f) n (e, s)) = attempted f n s.
Proof.
  induction n as [|n IH]; intros e s; [reflexivity|].
  cbn [refreshed attempted]. cbn [retryConf Refresh].
  destruct (f s) as [[re|] s']; cbn [snd]; [destruct (Retryable re)|]; apply IH.
Qed.

Lemma retry_Refresh_fst timeout f e s :
  fst (Refresh (retryConf timeout f) (e, s)) =
  match fst (f s) with
  | None => Ok (42, "success")
  | Some re => if Retryable re then Ok (42, "retryableerror") else Err (RetryErr re)
  end.
Proof.
  cbn [retryConf Refresh]. destruct (f s) as [[re|] s']; cbn [fst];
    [destruct (Retryable re)|]; reflexivity.
Qed.

Lemma retry_Refresh_snd timeout f e s :
  snd (Refresh (retryConf timeout f) (e, s)) =
  (match fst (f s) with None => None | Some re => Some (RetryErr re) end, snd (f s)).
Proof.
  cbn [retryConf Refresh]. destruct (f s) as [[re|] s']; cbn [fst snd];
    [destruct (Retryable re)|]; reflexivity.
Qed.

Lemma retry_pendingAt timeout f e s err :
  fst (f s) = RetryableError err -> pendingAt (retryConf timeout f) (e, s).
Proof.
  intros Hf. exists 42, "retryableerror".
  rewrite retry_Refresh_fst, Hf. cbn. auto.
Qed.

Lemma retry_pending_prefix timeout f s (P : nat -> Prop) :
  (forall i, P i -> exists err, fst (f (attempted f i s)) = RetryableError err) ->
  forall i, P i -> pendingAt (retryConf timeout f) (refreshed (retryConf timeout f) i (None, s)).
Proof.
  intros Hr i Hi. destruct (Hr i Hi) as [err Herr].
  destruct (refreshed (retryConf timeout f) i (None, s)) as [e' s'] eqn:Hs.
  pose proof (retry_refreshed timeout f i None s) as Hsnd.
  rewrite Hs in Hsnd. cbn [snd] in Hsnd. subst s'.
  eapply retry_pendingAt; eauto.
Qed.

(** The state the wait of [Retry] is in after attempt [n]. *)
Lemma retry_refreshed_S timeout f n s :
  refreshed (retryConf timeout f) (S n) (None, s) =
  (match fst (f (attempted f n s)) with None => None | Some re => Some (RetryErr re) end,
   attempted f (S n) s).
Proof.
  rewrite refreshed_S, attempted_S.
  destruct (refreshed (retryConf timeout f) n (None, s)) as [e' s'] eqn:Hs.
  pose proof (retry_refreshed timeout f n None s) as Hsnd.
  rewrite Hs in Hsnd. cbn [snd] in Hsnd. subst s'.
  apply retry_Refresh_snd.
Qed.

(** After [n] retryable attempts, an attempt made in time that returns [nil]
    makes [Retry] return [nil]. *)
Lemma Retry_succeeds timeout f n s :
  (forall i, i < n -> exists err, fst (f (attempted f i s)) = RetryableError err) ->
  fst (f (attempted f n s)) = None ->
  retryTime n < timeout ->
  Retry timeout f s = (None, attempted f (S n) s).
Proof.
  intros Hr Hn Ht. unfold Retry.
  rewrite (WaitForState_converges (retryConf timeout f) n (None, s) 42 "success").
  - rewrite retry_refreshed_S, Hn. reflexivity.
  - apply (retry_pending_prefix timeout f s (fun i => i < n)). exact Hr.
  - destruct (refreshed (retryConf timeout f) n (None, s)) as [e' s'] eqn:Hs.
    pose proof (retry_refreshed timeout f n None s) as Hsnd.
    rewrite Hs in Hsnd. cbn [snd] in Hsnd. subst s'.
    rewrite retry_Refresh_fst, Hn. reflexivity.
  - reflexivity.
  - exact Ht.
Qed.

(** After [n] retryable attempts, an attempt made in time that returns a
    non-retryable error makes [Retry] return that error. *)
Lemma Retry_aborts timeout f n s err :
  (forall i, i < n -> exists err, fst (f (attempted f i s)) = RetryableError err) ->
  fst (f (attempted f n s)) = NonRetryableError err ->
  retryTime n < timeout ->
  Retry timeout f s = (Some err, attempted f (S n) s).
Proof.
  intros Hr Hn Ht. unfold Retry.
  rewrite (WaitForState_aborts (retryConf timeout f) n (None, s) err).
  - rewrite retry_refreshed_S, Hn. reflexivity.
  - apply (retry_pending_prefix timeout f s (fun i => i < n)). exact Hr.
  - destruct (refreshed (retryConf timeout f) n (None, s)) as [e' s'] eqn:Hs.
    pose proof (retry_refreshed timeout f n None s) as Hsnd.
    rewrite Hs in Hsnd. cbn [snd] in Hsnd. subst s'.
    rewrite retry_Refresh_fst, Hn. reflexivity.
  - exact Ht.
Qed.

(** After [k] retryable attempts made in time, [Retry] gives up when attempt
    [k] would start at or after the timeout. *)
Lemma Retry_times_out_at timeout f k s :
  (forall i, i < k -> exists err, fst (f (attempted f i s)) = RetryableError err) ->
  (forall j, j < k -> retryTime j < timeout) ->
  timeout <= retryTime k ->
  exists last e,
    fst (WaitForState (retryConf timeout f) (None, s)) = Err (TimeoutError last ["success"])
    /\ Retry timeout f s = (Some e, attempted f k s)
    /\ (k = 0 -> e = TimeoutError "" ["success"])
    /\ (forall m, k = S m -> fst (f (attempted f m s)) = RetryableError e).
Proof.
  intros Hr Hj Hk.
  destruct (WaitForState_times_out_at (retryConf timeout f) k (None, s))
    as (last & Heq & H0 & H1).
  { apply (retry_pending_prefix timeout f s (fun i => i < k)). exact Hr. }
  { exact Hj. }
  { exact Hk. }
  exists last. unfold Retry. rewrite Heq. cbn [fst].
  destruct k as [|m].
  - exists (TimeoutError "" ["success"]). cbn [refreshed attempted].
    rewrite H0 by reflexivity. repeat split; auto. intros; discriminate.
  - destruct (Hr m) as [err Herr]; [lia|]. exists err.
    rewrite retry_refreshed_S, Herr. cbn [RetryableError RetryErr].
    repeat split; auto; try discriminate.
    intros m' Hm. injection Hm as <-. exact Herr.
Qed.

(** When every attempt made before the timeout is retryable, the wait of
    [Retry] ends by the timeout, at the first attempt that would start at or
    after it, and [Retry] returns an error: the one of the last attempt made,
    or the timeout itself when none was. *)
Lemma Retry_times_out timeout f s :
  (forall i, retryTime i < timeout ->
     exists err, fst (f (attempted f i s)) = RetryableError err) ->
  exists k last e,
    fst (WaitForState (retryConf timeout f) (None, s)) = Err (TimeoutError last ["success"])
    /\ Retry timeout f s = (Some e, attempted f k s)
    /\ timeout <= retryTime k
    /\ (forall j, j < k -> retryTime j < timeout)
    /\ (k = 0 -> e = TimeoutError "" ["success"])
    /\ (forall m, k = S m -> fst (f (attempted f m s)) = RetryableError e).
Proof.
  intros Hr.
  destruct (first_round_after 500 0 0 timeout) as (k & Hk & Hj).
  destruct (Retry_times_out_at timeout f k s) as (last & e & Hw & HR & H0 & HS); auto.
  exists k, last, e. auto 10.
Qed.

(** [Retry] ends in the state after some number of attempts. *)
Lemma Retry_final timeout f s :
  exists k, snd (Retry timeout f s) = attempted f k s.
Proof.
  unfold Retry, WaitForState.
  destruct (refreshLoop_final (retryConf timeout f) timeout 0 0 "" (None, s)) as [k Hk].
  cbn [conf_Timeout retryConf Delay] in *.
  destruct (refreshLoop _ _ _ _ _ _) as [r [e s']]. cbn [snd] in Hk.
  exists k. pose proof (retry_refreshed timeout f k None s) as Hs.
  rewrite <- Hk in Hs. cbn [snd] in Hs.
  destruct e; cbn [snd]; auto.
Qed.

(** Two runs of [Retry] whose attempts answer alike, from states related by
    [R], end alike. *)
Lemma Retry_sim timeout f (R : St -> St -> Prop) :
  (forall s1 s2, R s1 s2 ->
     fst (f s1) = fst (f s2) /\ R (snd (f s1)) (snd (f s2))) ->
  forall s1 s2, R s1 s2 ->
    fst (Retry timeout f s1) = fst (Retry timeout f s2)
    /\ R (snd (Retry timeout f s1)) (snd (Retry timeout f s2)).
Proof.
  intros Hstep s1 s2 HR. unfold Retry, WaitForState.
  destruct (refreshLoop_sim (retryConf timeout f)
              (fun a b => fst a = fst b /\ R (snd a) (snd b))) with
    (fuel := timeout) (clock := 0) (wait := 0) (last := "")
    (s1 := (@None error, s1)) (s2 := (@None error, s2)) as [Hfst [He Hs]].
  - intros [e1 t1] [e2 t2] [_ Ht]. cbn [fst snd] in Ht.
    rewrite !retry_Refresh_fst, !retry_Refresh_snd.
    destruct (Hstep _ _ Ht) as [Hf Hn]. rewrite Hf. cbn [fst snd]. auto.
  - cbn [fst snd]. auto.
  - cbn [conf_Timeout retryConf Delay] in *.
    destruct (refreshLoop _ _ _ _ _ (None, s1)) as [r1 [e1 t1]].
    destruct (refreshLoop _ _ _ _ _ (None, s2)) as [r2 [e2 t2]].
    cbn [fst snd] in *. subst r2 e2.
    destruct e1; cbn [fst snd]; auto.
Qed.
End RetryFacts.

(** ** The remote calls *)

Lemma afterGets_S id k : forall w,
  afterGets id (S k) w = snd (GetProject id (afterGets id k w)).
Proof.
  induction k as [|k IH]; intros w; [reflexivity|].
  change (afterGets id (S (S k)) w) with (afterGets id (S k) (snd (GetProject id w))).
  rewrite IH. reflexivity.
Qed.

Lemma afterGets_onGet id k : forall w, onGet (afterGets id k w) = onGet w.
Proof. induction k as [|k IH]; intros w; [reflexivity|]. cbn [afterGets]. rewrite IH. reflexivity. Qed.

Lemma afterGets_gets id k : forall w, gets (afterGets id k w) = gets w + k.
Proof.
  induction k as [|k IH]; intros w; cbn [afterGets]; [lia|].
  rewrite IH. cbn [GetProject snd gets]. lia.
Qed.

Lemma afterGets_answer id k w : fst (GetProject id (afterGets id k w)) = onGet w (gets w + k).
Proof. cbn [GetProject fst]. rewrite afterGets_onGet, afterGets_gets. reflexivity. Qed.

(** ** Read *)

Section ReadFacts.
Implicit Types (d : ResourceData) (w : World).

Lemma readAttempt_world d w : snd (snd (readAttempt (d, w))) = snd (GetProject (Id d) w).
Proof.
  cbn [readAttempt]. destruct (GetProject (Id d) w) as [[r|e] w'] eqn:HG.
  - reflexivity.
  - destruct e as [t1 t2 m| | |code m| | | |]; try reflexivity.
    + destruct (t1 || t2); reflexivity.
    + destruct ((code =? StatusForbidden)%Z || (code =? StatusNotFound)%Z); reflexivity.
Qed.

Lemma readAttempt_transient d w :
  isTransient (onGet w (gets w)) = true ->
  exists err, readAttempt (d, w) = (RetryableError err, (d, snd (GetProject (Id d) w))).
Proof.
  intros Ht. cbn [readAttempt GetProject snd].
  destruct (onGet w (gets w)) as [r|e]; [discriminate|].
  destruct e as [t1 t2 m| | | | | | |]; try discriminate.
  cbn [isTransient] in Ht. rewrite Ht. eauto.
Qed.

Lemma readAttempt_found d w r :
  onGet w (gets w) = Ok r ->
  readAttempt (d, w) = (None, (materialized r d, snd (GetProject (Id d) w))).
Proof. intros Hr. cbn [readAttempt GetProject snd]. rewrite Hr. reflexivity. Qed.

Lemma readAttempt_absent d w :
  isAbsent (onGet w (gets w)) = true ->
  readAttempt (d, w) = (None, (SetId "" d, snd (GetProject (Id d) w))).
Proof.
  intros Ha. cbn [readAttempt GetProject snd].
  destruct (onGet w (gets w)) as [r|e]; [discriminate|].
  destruct e as [| | |code m| | | |]; try discriminate.
  cbn [isAbsent] in Ha. rewrite Ha. reflexivity.
Qed.

(** An answer that is not transient ends the retries: the attempt returns
    [nil] or a non-retryable error. *)
Lemma readAttempt_final d w :
  isTransient (onGet w (gets w)) = false ->
  fst (readAttempt (d, w)) = None
  \/ exists err, fst (readAttempt (d, w)) = NonRetryableError err.
Proof.
  intros Ht. cbn [readAttempt GetProject snd].
  destruct (onGet w (gets w)) as [r|e]; [left; reflexivity|].
  destruct e as [t1 t2 m| | |code m| | | |]; try (right; eexists; reflexivity).
  - cbn [isTransient] in Ht. rewrite Ht. right; eexists; reflexivity.
  - destruct ((code =? StatusForbidden)%Z || (code =? StatusNotFound)%Z);
      [left | right; eexists]; reflexivity.
Qed.

Lemma read_attempted_transient d n : forall w,
  (forall i, i < n -> isTransient (onGet w (gets w + i)) = true) ->
  attempted readAttempt n (d, w) = (d, afterGets (Id d) n w).
Proof.
  induction n as [|n IH]; intros w Ht; [reflexivity|].
  cbn [attempted afterGets].
  destruct (readAttempt_transient d w) as [err Herr].
  { specialize (Ht 0). rewrite Nat.add_0_r in Ht. apply Ht. lia. }
  rewrite Herr. cbn [snd]. apply IH.
  intros i Hi. cbn [GetProject snd onGet gets].
  replace (S (gets w) + i) with (gets w + S i) by lia. apply Ht. lia.
Qed.

Lemma read_retryable_prefix d w n :
  (forall i, i < n -> isTransient (onGet w (gets w + i)) = true) ->
  forall i, i < n ->
    exists err, fst (readAttempt (attempted readAttempt i (d, w))) = RetryableError err.
Proof.
  intros Ht i Hi.
  rewrite (read_attempted_transient d i w) by (intros j Hj; apply Ht; lia).
  destruct (readAttempt_transient d (afterGets (Id d) i w)) as [err Herr].
  { rewrite afterGets_onGet, afterGets_gets. apply Ht, Hi. }
  exists err. rewrite Herr. reflexivity.
Qed.

(** After [n] transient answers, the first answer of another kind, if it is
    got in time, decides the read. *)
Lemma read_decided d w n :
  (forall i, i < n -> isTransient (onGet w (gets w + i)) = true) ->
  isTransient (onGet w (gets w + n)) = false ->
  retryTime n < Timeout TimeoutRead d ->
  resourceProjectRead d w = readOnce d (afterGets (Id d) n w).
Proof.
  intros Ht Hn Htime. unfold resourceProjectRead, readOnce.
  pose proof (read_retryable_prefix d w n Ht) as Hpre.
  pose proof (read_attempted_transient d n w Ht) as Hat.
  destruct (readAttempt_final d (afterGets (Id d) n w)) as [Hnone|[err Herr]].
  { rewrite afterGets_onGet, afterGets_gets. exact Hn. }
  - rewrite (Retry_succeeds _ readAttempt n (d, w) Hpre) by (rewrite ?Hat; auto).
    rewrite attempted_S, Hat.
    destruct (readAttempt (d, afterGets (Id d) n w)) as [r [d' w']].
    cbn [fst snd] in *. subst r. reflexivity.
  - rewrite (Retry_aborts _ readAttempt n (d, w) err Hpre) by (rewrite ?Hat; auto).
    rewrite attempted_S, Hat.
    destruct (readAttempt (d, afterGets (Id d) n w)) as [r [d' w']].
    cbn [fst snd] in *. subst r. reflexivity.
Qed.

(** After [k] transient answers got in time, the read gives up when the next
    attempt would start at or after the timeout. *)
Lemma read_gives_up d w k :
  (forall i, i < k -> isTransient (onGet w (gets w + i)) = true) ->
  (forall j, j < k -> retryTime j < Timeout TimeoutRead d) ->
  Timeout TimeoutRead d <= retryTime k ->
  exists e, resourceProjectRead d w = (Some e, d, afterGets (Id d) k w).
Proof.
  intros Ht Hj Hk. unfold resourceProjectRead.
  destruct (Retry_times_out_at (Timeout TimeoutRead d) readAttempt k (d, w)
              (read_retryable_prefix d w k Ht) Hj Hk) as (last & e & _ & Heq & _).
  exists e. rewrite Heq, (read_attempted_transient d k w Ht). reflexivity.
Qed.
End ReadFacts.

Lemma isAbsent_not_transient r : isAbsent r = true -> isTransient r = false.
Proof. destruct r as [p|[]]; cbn; congruence. Qed.

Lemma Ok_not_transient (p : Project) : isTransient (Ok p) = false.
Proof. reflexivity. Qed.

(** After [n] transient answers, an answer "absent" got in time makes the
    read return [nil] with the identity cleared and nothing else changed. *)
Lemma read_absent d w n :
  (forall i, i < n -> isTransient (onGet w (gets w + i)) = true) ->
  isAbsent (onGet w (gets w + n)) = true ->
  retryTime n < Timeout TimeoutRead d ->
  resourceProjectRead d w = (None, SetId "" d, afterGets (Id d) (S n) w).
Proof.
  intros Ht Ha Htime.
  rewrite (read_decided d w n Ht (isAbsent_not_transient _ Ha) Htime).
  unfold readOnce. rewrite readAttempt_absent, afterGets_S.
  - reflexivity.
  - rewrite afterGets_onGet, afterGets_gets. exact Ha.
Qed.

(** After [n] transient answers, a project got in time makes the read return
    [nil] with the attributes copied from it. *)
Lemma read_found d w n r :
  (forall i, i < n -> isTransient (onGet w (gets w + i)) = true) ->
  onGet w (gets w + n) = Ok r ->
  retryTime n < Timeout TimeoutRead d ->
  resourceProjectRead d w = (None, materialized r d, afterGets (Id d) (S n) w).
Proof.
  intros Ht Hr Htime.
  rewrite (read_decided d w n Ht) by (rewrite ?Hr; auto).
  unfold readOnce. rewrite (readAttempt_found _ _ r), afterGets_S.
  - reflexivity.
  - rewrite afterGets_onGet, afterGets_gets. exact Hr.
Qed.

(** Every read either is decided by the first answer that is not transient,
    got in time, or gives up at the timeout after transient answers only. *)
Lemma read_outcomes d w :
  (exists n,
      (forall i, i < n -> isTransient (onGet w (gets w + i)) = true)
      /\ isTransient (onGet w (gets w + n)) = false
      /\ retryTime n < Timeout TimeoutRead d
      /\ resourceProjectRead d w = readOnce d (afterGets (Id d) n w))
  \/ (exists k e,
      (forall i, i < k -> isTransient (onGet w (gets w + i)) = true)
      /\ (forall j, j < k -> retryTime j < Timeout TimeoutRead d)
      /\ Timeout TimeoutRead d <= retryTime k
      /\ resourceProjectRead d w = (Some e, d, afterGets (Id d) k w)).
Proof.
  destruct (first_round_after 500 0 0 (Timeout TimeoutRead d)) as (k & Hk & Hj).
  destruct (first_failure (fun i => isTransient (onGet w (gets w + i))) k)
    as [Hall|(n & Hn & Hbefore & Hfail)].
  - right. destruct (read_gives_up d w k Hall Hj Hk) as [e He]. exists k, e. auto.
  - left. exists n. repeat split; auto.
    apply read_decided; auto.
Qed.

(** ** Texts *)








(** ** Labels *)

Lemma attr_labels a : attr "labels" a = Some (VMap (labels a)).
Proof. reflexivity. Qed.

(** The copy loop stores every entry: the copy is the map itself. *)
Lemma copyLabels_id (att : gmap string string) : copyLabels att = att.
Proof.
  unfold copyLabels.
  apply (map_fold_weak_ind (fun (acc att : gmap string string) => acc = att)).
  - reflexivity.
  - intros key val m acc _ ->. reflexivity.
Qed.

(** ** The requests of a read *)

Lemma read_attempts_sent k : forall d w,
  exists l,
    sent (snd (attempted readAttempt k (d, w))) = (l ++ sent w)%list
    /\ forallb isGetReq l = true
    /\ length l = k.
Proof.
  induction k as [|k IH]; intros d w.
  - exists []. auto.
  - cbn [attempted].
    destruct (readAttempt (d, w)) as [r [d1 w1]] eqn:HA. cbn [snd].
    pose proof (readAttempt_world d w) as Hw. rewrite HA in Hw. cbn [snd] in Hw.
    destruct (IH d1 w1) as (l & Hl & Hget & Hlen).
    exists (l ++ [GetProjectReq (Id d)])%list. rewrite Hl, Hw.
    cbn [GetProject snd sent]. rewrite <- app_assoc. split; [reflexivity|].
    rewrite forallb_app, Hget, length_app, Hlen. cbn. split; [reflexivity | lia].
Qed.

(** A read sends get requests only. *)
Lemma read_sent d w :
  exists l,
    sent (snd (resourceProjectRead d w)) = (l ++ sent w)%list /\ forallb isGetReq l = true.
Proof.
  unfold resourceProjectRead.
  destruct (Retry_final (Timeout TimeoutRead d) readAttempt (d, w)) as [k Hk].
  destruct (Retry _ readAttempt (d, w)) as [e [d' w']]. cbn [snd] in *.
  destruct (read_attempts_sent k d w) as (l & Hl & Hget & _).
  rewrite <- Hk in Hl. cbn [snd] in Hl. exists l. auto.
Qed.

(** An attempt of a read that is not answered with the project leaves the
    attributes as they are. *)
Lemma readAttempt_attrs_kept d w :
  (forall r, onGet w (gets w) <> Ok r) ->
  rd_new (fst (snd (readAttempt (d, w)))) = rd_new d.
Proof.
  intros Hno. cbn [readAttempt GetProject].
  destruct (onGet w (gets w)) as [r|e]; [exfalso; apply (Hno r); reflexivity|].
  destruct e as [t1 t2 m| | |code m| | | |]; try reflexivity.
  - destruct (t1 || t2); reflexivity.
  - destruct ((code =? StatusForbidden)%Z || (code =? StatusNotFound)%Z); reflexivity.
Qed.

Lemma read_attempts_attrs_kept k : forall d w,
  rd_new (fst (attempted readAttempt k (d, w))) = rd_new d
  \/ exists n r, onGet w (gets w + n) = Ok r.
Proof.
  induction k as [|k IH]; intros d w; [left; reflexivity|].
  cbn [attempted].
  destruct (onGet w (gets w)) as [r|e] eqn:Hg.
  { right. exists 0, r. rewrite Nat.add_0_r. exact Hg. }
  pose proof (readAttempt_attrs_kept d w) as Hkept.
  pose proof (readAttempt_world d w) as Hw.
  destruct (readAttempt (d, w)) as [x [d1 w1]]. cbn [fst snd] in *. subst w1.
  destruct (IH d1 (snd (GetProject (Id d) w))) as [Heq|(n & r & Hr)].
  - left. rewrite Heq. apply Hkept. intros r. rewrite Hg. discriminate.
  - right. exists (S n), r. cbn [GetProject snd onGet gets] in Hr.
    replace (gets w + S n) with (S (gets w) + n) by lia. exact Hr.
Qed.

(** A read changes the attributes only when a get was answered with the
    project. *)
Lemma read_attrs_kept d w :
  rd_new (snd (fst (resourceProjectRead d w))) <> rd_new d ->
  exists n r, onGet w (gets w + n) = Ok r.
Proof.
  intros Hne. unfold resourceProjectRead in Hne.
  destruct (Retry_final (Timeout TimeoutRead d) readAttempt (d, w)) as [k Hk].
  destruct (Retry _ readAttempt (d, w)) as [e [d' w']]. cbn [fst snd] in *.
  destruct (read_attempts_attrs_kept k d w) as [Heq|Hex]; [|exact Hex].
  rewrite <- Hk in Heq. cbn [fst] in Heq. contradiction.
Qed.

(** ** Create *)

Section CreateFacts.
Variables (retryTimeout requestDelay : nat).
Implicit Types (d : ResourceData) (w : World).

Lemma create_refreshed id d n : forall w,
  refreshed (createStateConf retryTimeout requestDelay id d) n w = afterGets id n w.
Proof.
  induction n as [|n IH]; intros w; [reflexivity|].
  cbn [refreshed afterGets]. rewrite <- IH. f_equal.
  cbn [createStateConf Refresh]. unfold createRefresh.
  destruct (GetProject id w) as [[r|e] w']; reflexivity.
Qed.

Lemma createRefresh_fst id w :
  fst (createRefresh id w) =
  match onGet w (gets w) with Ok r => Ok (r, Status r) | Err e => Err e end.
Proof. unfold createRefresh. cbn [GetProject]. destruct (onGet w (gets w)); reflexivity. Qed.

Lemma create_pendingAt id d w i q :
  onGet w (gets w + i) = Ok q -> Status q = projectInactive ->
  pendingAt (createStateConf retryTimeout requestDelay id d)
    (refreshed (createStateConf retryTimeout requestDelay id d) i w).
Proof.
  intros Hq Hst. exists q, projectInactive. rewrite create_refreshed.
  cbn [createStateConf Refresh Target Pending].
  rewrite createRefresh_fst, afterGets_onGet, afterGets_gets, Hq, Hst. auto.
Qed.
End CreateFacts.

(** ** Delete *)

Section DeleteFacts.
Implicit Types (d : ResourceData) (w : World).

Lemma deleteAttempt_world d w : snd (deleteAttempt d w) = snd (GetProject (Id d) w).
Proof.
  unfold deleteAttempt. destruct (GetProject (Id d) w) as [[r|e] w']; [reflexivity|].
  destruct e as [| | |code m| | | |]; try reflexivity.
  destruct ((code =? StatusForbidden)%Z || (code =? StatusNotFound)%Z); reflexivity.
Qed.

Lemma delete_attempted d n : forall w,
  attempted (deleteAttempt d) n w = afterGets (Id d) n w.
Proof.
  induction n as [|n IH]; intros w; [reflexivity|].
  cbn [attempted afterGets]. rewrite deleteAttempt_world. apply IH.
Qed.

Lemma deleteAttempt_found d w r :
  onGet w (gets w) = Ok r ->
  fst (deleteAttempt d w)
  = RetryableError (Errorf ("project '" +:+ Id d +:+ "' still exists, currently in '"
                            +:+ Status r +:+ "' state")).
Proof. intros Hr. unfold deleteAttempt. cbn [GetProject]. rewrite Hr. reflexivity. Qed.

Lemma deleteAttempt_absent d w :
  isAbsent (onGet w (gets w)) = true -> fst (deleteAttempt d w) = None.
Proof.
  intros Ha. unfold deleteAttempt. cbn [GetProject].
  destruct (onGet w (gets w)) as [r|e]; [discriminate|].
  destruct e as [| | |code m| | | |]; try discriminate.
  cbn [isAbsent] in Ha. rewrite Ha. reflexivity.
Qed.

Lemma delete_retryable_prefix d w (P : nat -> Prop) :
  (forall i, P i -> exists q, onGet w (gets w + i) = Ok q) ->
  forall i, P i ->
    exists err, fst (deleteAttempt d (attempted (deleteAttempt d) i w)) = RetryableError err.
Proof.
  intros Hf i Hi. destruct (Hf i Hi) as [q Hq].
  rewrite delete_attempted. eexists. apply (deleteAttempt_found _ _ q).
  rewrite afterGets_onGet, afterGets_gets. exact Hq.
Qed.
End DeleteFacts.

(** ** Forbidden and not found *)

Section Alike.
Implicit Types (d : ResourceData) (w : World).

Lemma alike_GetProject id w1 w2 :
  alike w1 w2 ->
  sameAnswer (fst (GetProject id w1)) (fst (GetProject id w2))
  /\ alike (snd (GetProject id w1)) (snd (GetProject id w2)).
Proof.
  intros (Hc & Hu & Hd & Hg & Hs & Ha). cbn [GetProject fst snd]. split.
  - rewrite Hg. apply Ha.
  - unfold alike. cbn [onCreate onUpdate onDelete gets sent onGet].
    rewrite Hg, Hs. auto 10.
Qed.

Lemma alike_log_request q w1 w2 : alike w1 w2 -> alike (log_request q w1) (log_request q w2).
Proof.
  intros (Hc & Hu & Hd & Hg & Hs & Ha). unfold alike.
  cbn [log_request onCreate onUpdate onDelete gets sent onGet]. rewrite Hs. auto 10.
Qed.

Lemma readAttempt_alike d w1 w2 :
  alike w1 w2 ->
  fst (readAttempt (d, w1)) = fst (readAttempt (d, w2))
  /\ fst (snd (readAttempt (d, w1))) = fst (snd (readAttempt (d, w2)))
  /\ alike (snd (snd (readAttempt (d, w1)))) (snd (snd (readAttempt (d, w2)))).
Proof.
  intros Hal. destruct (alike_GetProject (Id d) w1 w2 Hal) as [Hans Hnext].
  rewrite !readAttempt_world. split; [|split]; [| |exact Hnext].
  - cbn [GetProject fst] in Hans. destruct Hans as [Heq|[Ha1 Ha2]].
    + cbn [readAttempt GetProject]. rewrite Heq.
      destruct (onGet w2 (gets w2)) as [r|[t1 t2 m| | |code m| | | |]]; try reflexivity.
      * destruct (t1 || t2); reflexivity.
      * destruct ((code =? StatusForbidden)%Z || (code =? StatusNotFound)%Z); reflexivity.
    + rewrite (readAttempt_absent d w1 Ha1), (readAttempt_absent d w2 Ha2). reflexivity.
  - cbn [GetProject fst] in Hans. destruct Hans as [Heq|[Ha1 Ha2]].
    + cbn [readAttempt GetProject]. rewrite Heq.
      destruct (onGet w2 (gets w2)) as [r|[t1 t2 m| | |code m| | | |]]; try reflexivity.
      * destruct (t1 || t2); reflexivity.
      * destruct ((code =? StatusForbidden)%Z || (code =? StatusNotFound)%Z); reflexivity.
    + rewrite (readAttempt_absent d w1 Ha1), (readAttempt_absent d w2 Ha2). reflexivity.
Qed.

Lemma deleteAttempt_alike d w1 w2 :
  alike w1 w2 ->
  fst (deleteAttempt d w1) = fst (deleteAttempt d w2)
  /\ alike (snd (deleteAttempt d w1)) (snd (deleteAttempt d w2)).
Proof.
  intros Hal. destruct (alike_GetProject (Id d) w1 w2 Hal) as [Hans Hnext].
  rewrite !deleteAttempt_world. split; [|exact Hnext].
  cbn [GetProject fst] in Hans. destruct Hans as [Heq|[Ha1 Ha2]].
  - unfold deleteAttempt. cbn [GetProject]. rewrite Heq.
    destruct (onGet w2 (gets w2)) as [r|[| | |code m| | | |]]; try reflexivity.
    destruct ((code =? StatusForbidden)%Z || (code =? StatusNotFound)%Z); reflexivity.
  - rewrite (deleteAttempt_absent d w1 Ha1), (deleteAttempt_absent d w2 Ha2). reflexivity.
Qed.

Lemma read_alike d w1 w2 :
  alike w1 w2 ->
  fst (resourceProjectRead d w1) = fst (resourceProjectRead d w2)
  /\ alike (snd (resourceProjectRead d w1)) (snd (resourceProjectRead d w2)).
Proof.
  intros Hal. unfold resourceProjectRead.
  destruct (Retry_sim (Timeout TimeoutRead d) readAttempt
              (fun a b => fst a = fst b /\ alike (snd a) (snd b))) with
    (s1 := (d, w1)) (s2 := (d, w2)) as [He [Hd Hw]].
  - intros [d1 u1] [d2 u2] [Hd Hu]. cbn [fst snd] in Hd, Hu. subst d2.
    destruct (readAttempt_alike d1 u1 u2 Hu) as (H1 & H2 & H3). auto.
  - cbn [fst snd]. auto.
  - destruct (Retry _ readAttempt (d, w1)) as [e1 [d1 u1]].
    destruct (Retry _ readAttempt (d, w2)) as [e2 [d2 u2]].
    cbn [fst snd] in *. subst. auto.
Qed.

Lemma delete_alike d w1 w2 :
  alike w1 w2 ->
  fst (resourceProjectDelete d w1) = fst (resourceProjectDelete d w2)
  /\ alike (snd (resourceProjectDelete d w1)) (snd (resourceProjectDelete d w2)).
Proof.
  intros Hal. unfold resourceProjectDelete. cbn [DeleteProject].
  pose proof Hal as (_ & _ & Hd & _). rewrite Hd.
  pose proof (alike_log_request (DeleteProjectReq (Id d)) w1 w2 Hal) as Hlog.
  destruct (onDelete w2) as [e|]; [cbn [fst snd]; auto|].
  destruct (Retry_sim (Timeout TimeoutDelete d) (deleteAttempt d) alike
              (deleteAttempt_alike d) _ _ Hlog) as [He Hw].
  destruct (Retry _ (deleteAttempt d) (log_request _ w1)) as [e1 u1].
  destruct (Retry _ (deleteAttempt d) (log_request _ w2)) as [e2 u2].
  cbn [fst snd] in *. subst e2. destruct e1; cbn [fst snd]; auto.
Qed.
End Alike.

(** ** The claims *)

(** C1 (as amended).  In the retry loop of Read, a transport error that is a
    timeout or temporary is absorbed and the loop goes on: after any number
    of such errors, each got before the read timeout, the read is decided by
    the first answer of another kind that is got in time, exactly as if the
    transient errors had not happened; in particular a project got then makes
    Read return no error.  A transient error only reaches the caller when the
    next attempt would start at or after the timeout. *)
Theorem read_absorbs_transient_errors d w n :
  (forall i, i < n -> isTransient (onGet w (gets w + i)) = true) ->
  (forall j, j < n -> retryTime j < Timeout TimeoutRead d) ->
  (isTransient (onGet w (gets w + n)) = false ->
   retryTime n < Timeout TimeoutRead d ->
   resourceProjectRead d w = readOnce d (afterGets (Id d) n w))
  /\ (forall r, onGet w (gets w + n) = Ok r ->
      retryTime n < Timeout TimeoutRead d ->
      resourceProjectRead d w = (None, materialized r d, afterGets (Id d) (S n) w))
  /\ (Timeout TimeoutRead d <= retryTime n ->
      exists e, resourceProjectRead d w = (Some e, d, afterGets (Id d) n w)).
Proof.
  intros Ht Hj. repeat split.
  - intros Hn Htime. apply read_decided; auto.
  - intros r Hr Htime. apply read_found; auto.
  - intros Hk. apply read_gives_up; auto.
Qed.

Lemma read_absorbs_transient_errors_witness :
  resourceProjectRead tracked flaky_then_active
  = (None, materialized (team_a "Active") tracked, afterGets "p-1" 2 flaky_then_active).
Proof.
  destruct (read_absorbs_transient_errors tracked flaky_then_active 1) as (_ & Hfound & _).
  - intros [|i] Hi; [reflexivity | lia].
  - intros [|j] Hj; [apply Nat.ltb_lt; reflexivity | lia].
  - apply Hfound; [reflexivity | apply Nat.ltb_lt; reflexivity].
Defined.

(** C1 (as stated) fails outside Read.  The wait of Delete meets one transient
    transport error and then would find the project gone: it stops at the
    error, after a single get, and Delete returns it.  The poll of Create
    meets one transient transport error and then would find the project
    active: it stops at the error and Create returns it wrapped. *)
Lemma transient_error_aborts_delete_and_create :
  isTransient (onGet flaky_then_gone 0) = true
  /\ isAbsent (onGet flaky_then_gone 1) = true
  /\ fst (fst (resourceProjectDelete tracked flaky_then_gone)) = Some io_timeout
  /\ gets (snd (resourceProjectDelete tracked flaky_then_gone)) = 1
  /\ isTransient (onGet flaky_then_active 0) = true
  /\ onGet flaky_then_active 1 = Ok (team_a "Active")
  /\ fst (fst (resourceProjectCreate 1000 500 planned flaky_then_active))
     = Some (Errorf "error while waiting for project 'p-1' to be created: i/o timeout")
  /\ gets (snd (resourceProjectCreate 1000 500 planned flaky_then_active)) = 1.
Proof. vm_compute. repeat split. Qed.

(** C3.  When the get of Read is answered by the default response with status
    403 or 404 (after any number of transient errors, in time), Read returns
    no error and the stored identity is cleared. *)
Theorem read_absent_is_success d w n :
  (forall i, i < n -> isTransient (onGet w (gets w + i)) = true) ->
  isAbsent (onGet w (gets w + n)) = true ->
  retryTime n < Timeout TimeoutRead d ->
  fst (fst (resourceProjectRead d w)) = None
  /\ Id (snd (fst (resourceProjectRead d w))) = "".
Proof.
  intros Ht Ha Htime. rewrite (read_absent d w n Ht Ha Htime). split; reflexivity.
Qed.

Lemma read_absent_is_success_witness :
  fst (fst (resourceProjectRead tracked gone)) = None
  /\ Id (snd (fst (resourceProjectRead tracked gone))) = "".
Proof.
  apply (read_absent_is_success tracked gone 0).
  - intros i Hi. lia.
  - reflexivity.
  - apply Nat.ltb_lt. reflexivity.
Defined.

(** C10.  When Read finds the project absent, the data it leaves differ from
    the data it was given in the identity only: name, labels, status and the
    two timestamps are as they were, and so are the prior state and the
    timeouts.  Read changes the attributes only when a get was answered with
    the project. *)
Theorem read_absent_changes_identity_only d w :
  let d' := snd (fst (resourceProjectRead d w)) in
  (forall n,
     (forall i, i < n -> isTransient (onGet w (gets w + i)) = true) ->
     isAbsent (onGet w (gets w + n)) = true ->
     retryTime n < Timeout TimeoutRead d ->
     d' = SetId "" d
     /\ name (rd_new d') = name (rd_new d)
     /\ labels (rd_new d') = labels (rd_new d)
     /\ status (rd_new d') = status (rd_new d)
     /\ creation_timestamp (rd_new d') = creation_timestamp (rd_new d)
     /\ deletion_timestamp (rd_new d') = deletion_timestamp (rd_new d)
     /\ rd_old d' = rd_old d
     /\ rd_timeouts d' = rd_timeouts d)
  /\ (rd_new d' <> rd_new d -> exists n r, onGet w (gets w + n) = Ok r).
Proof.
  cbn zeta. split.
  - intros n Ht Ha Htime. rewrite (read_absent d w n Ht Ha Htime).
    cbn. repeat split.
  - apply read_attrs_kept.
Qed.

Lemma read_absent_changes_identity_only_witness :
  snd (fst (resourceProjectRead tracked flaky_then_gone)) = SetId "" tracked.
Proof.
  destruct (read_absent_changes_identity_only tracked flaky_then_gone) as [H _].
  apply (H 1).
  - intros [|i] Hi; [reflexivity | lia].
  - reflexivity.
  - apply Nat.ltb_lt. reflexivity.
Defined.

(** C2.  The update request that Update sends carries the desired name
    whether or not the name changed; it carries labels exactly when the
    labels are flagged as changed, and then the whole desired label map.
    Update sends this one update request, and get requests after it. *)
Theorem update_payload d w :
  exists l body,
    sent (snd (resourceProjectUpdate d w))
      = (l ++ UpdateProjectReq (Id d) body :: sent w)%list
    /\ forallb isGetReq l = true
    /\ Name body = as_string (Get "name" d)
    /\ Name body = name (rd_new d)
    /\ Labels body = (if HasChange "labels" d then Some (labels (rd_new d)) else None)
    /\ (HasChange "labels" d = true <-> labels (rd_old d) <> labels (rd_new d)).
Proof.
  assert (Hbody : Name (updateBody d) = name (rd_new d)
                  /\ Labels (updateBody d)
                     = if HasChange "labels" d then Some (labels (rd_new d)) else None).
  { unfold updateBody. cbn [Name Labels]. split.
    - destruct (HasChange "name" d); reflexivity.
    - destruct (HasChange "labels" d); [|reflexivity].
      rewrite copyLabels_id. reflexivity. }
  destruct Hbody as [Hname Hlabels].
  assert (Hflag : HasChange "labels" d = true <-> labels (rd_old d) <> labels (rd_new d)).
  { unfold HasChange. rewrite !attr_labels, negb_true_iff, bool_decide_eq_false.
    split; intros H; [intros Heq; apply H; rewrite Heq; reflexivity|].
    intros [= Heq]. exact (H Heq). }
  unfold resourceProjectUpdate. cbn [UpdateProject].
  destruct (onUpdate w) as [e|].
  - exists [], (updateBody d). cbn [snd log_request sent app forallb].
    repeat split; auto; apply Hflag.
  - destruct (read_sent d (log_request (UpdateProjectReq (Id d) (updateBody d)) w))
      as (l & Hl & Hget).
    exists l, (updateBody d). rewrite Hl. cbn [log_request sent].
    repeat split; auto; apply Hflag.
Qed.

(** The scenario of the specification: the name as it was, one label added;
    the body carries the name and both labels. *)
Example update_relabelled_body :
  HasChange "name" relabelled = false
  /\ Name (updateBody relabelled) = "team-a"
  /\ Labels (updateBody relabelled) = Some (<[ "b" := "2" ]> {[ "a" := "1" ]}).
Proof. vm_compute. repeat split. Qed.

(** C7 (as stated) fails in the step after the update.  The update call
    succeeds and the get of the read that follows is answered "not found":
    Update returns no error and clears the identity. *)
Lemma update_succeeds_when_read_finds_nothing :
  onUpdate gone = None
  /\ onGet gone 0 = Err not_found
  /\ fst (fst (resourceProjectUpdate tracked gone)) = None
  /\ Id (snd (fst (resourceProjectUpdate tracked gone))) = "".
Proof. vm_compute. repeat split. Qed.

(** C7 (as amended).  An error of the update call itself, whatever it is and
    so also "not found" or "forbidden", makes Update return an error that
    wraps it, with the data untouched and no read made.  When the update
    call succeeds, Update returns what Read returns, so that in that step
    "not found" and "forbidden" mean what they mean to Read. *)
Theorem update_call_error_is_surfaced d w :
  let w1 := log_request (UpdateProjectReq (Id d) (updateBody d)) w in
  (forall e, onUpdate w = Some e ->
     resourceProjectUpdate d w
     = (Some (Errorf ("unable to update project '" +:+ Id d +:+ "': " +:+ Error e)), d, w1))
  /\ (onUpdate w = None -> resourceProjectUpdate d w = resourceProjectRead d w1).
Proof.
  cbn zeta. unfold resourceProjectUpdate. cbn [UpdateProject].
  split; [intros e He | intros He]; rewrite He; reflexivity.
Qed.

Lemma update_call_error_is_surfaced_witness :
  fst (fst (resourceProjectUpdate tracked update_refused))
  = Some (Errorf ("unable to update project 'p-1': "
                  +:+ "[PATCH /api/v1/projects/{project_id}][404] updateProject default"))
  /\ resourceProjectUpdate tracked gone
     = resourceProjectRead tracked
         (log_request (UpdateProjectReq "p-1" (updateBody tracked)) gone).
Proof.
  destruct (update_call_error_is_surfaced tracked update_refused) as [Herr _].
  destruct (update_call_error_is_surfaced tracked gone) as [_ Hok].
  split.
  - rewrite (Herr _ eq_refl). reflexivity.
  - apply Hok. reflexivity.
Defined.




(** C9.  Create stores the identity only once the wait has seen the project
    active.  When the create call fails, and when the wait that follows fails
    with whatever error, Create returns an error and the data, the identity
    with them, are as they were.  So when Create leaves an identity other
    than the one it was given, some get of the wait was answered with an
    active project. *)
Theorem create_failure_leaves_identity retryTimeout requestDelay d w :
  let w1 := log_request (CreateProjectReq (createBody d)) w in
  (forall e, onCreate w = Err e ->
     exists msg,
       resourceProjectCreate retryTimeout requestDelay d w = (Some (Errorf msg), d, w1))
  /\ (forall r e w2,
        onCreate w = Ok r ->
        WaitForState (createStateConf retryTimeout requestDelay (ID r) d) w1 = (Err e, w2) ->
        exists msg,
          resourceProjectCreate retryTimeout requestDelay d w = (Some (Errorf msg), d, w2))
  /\ (Id (snd (fst (resourceProjectCreate retryTimeout requestDelay d w))) <> Id d ->
      exists r n p,
        onCreate w = Ok r
        /\ onGet w (gets w + n) = Ok p
        /\ Status p = projectActive
        /\ WaitForState (createStateConf retryTimeout requestDelay (ID r) d) w1
           = (Ok p, afterGets (ID r) (S n) w1)).
Proof.
  cbn zeta. split; [|split].
  - intros e He. eexists. unfold resourceProjectCreate. cbn [CreateProject].
    rewrite He. reflexivity.
  - intros r e w2 Hr Hw. eexists. unfold resourceProjectCreate. cbn [CreateProject].
    rewrite Hr. cbn zeta. rewrite Hw. reflexivity.
  - unfold resourceProjectCreate. cbn [CreateProject].
    destruct (onCreate w) as [r|e]; [|intros H; exfalso; apply H; reflexivity].
    cbn zeta.
    destruct (WaitForState _ _) as [[p|e] w2] eqn:Hw;
      [|intros H; exfalso; apply H; reflexivity].
    intros _. unfold WaitForState in Hw.
    destruct (refreshLoop_Ok_inv _ _ _ _ _ _ _ _ Hw) as (n & st & Hr & Hst & Hs).
    rewrite create_refreshed in Hr. rewrite create_refreshed in Hs.
    cbn [createStateConf Refresh Target] in Hr, Hst.
    rewrite createRefresh_fst, afterGets_onGet, afterGets_gets in Hr.
    cbn [log_request onGet gets] in Hr.
    destruct (onGet w (gets w + n)) as [q|] eqn:Hq; [|discriminate].
    injection Hr as -> <-.
    exists r, n, p. split; [reflexivity|]. split; [exact Hq|]. split.
    + cbn [state_in existsb] in Hst. rewrite orb_false_r in Hst.
      apply String.eqb_eq. exact Hst.
    + subst w2. exact Hw.
Qed.

Lemma create_failure_leaves_identity_witness :
  (exists msg,
     resourceProjectCreate 1000 500 planned create_refused
     = (Some (Errorf msg), planned,
        log_request (CreateProjectReq (createBody planned)) create_refused))
  /\ (exists msg,
        resourceProjectCreate 1000 500 planned flaky_then_active
        = (Some (Errorf msg), planned,
           snd (WaitForState (createStateConf 1000 500 "p-1" planned)
                  (log_request (CreateProjectReq (createBody planned))
                     flaky_then_active)))).
Proof.
  split.
  - destruct (create_failure_leaves_identity 1000 500 planned create_refused) as (H & _).
    apply (H (OtherError "[POST /api/v1/projects][409] createProjectConflict")).
    reflexivity.
  - destruct (create_failure_leaves_identity 1000 500 planned flaky_then_active)
      as (_ & H & _).
    apply (H (team_a "Inactive") io_timeout).
    + reflexivity.
    + vm_compute. reflexivity.
Defined.

(** C5.  After a successful create call, when the gets of the wait are
    answered with an inactive project [n] times and then with an active one,
    and that last get is made before the create timeout, the wait succeeds
    after exactly [n + 1] gets, and Create stores the identity the remote
    side assigned and returns what Read returns from there.  When every get
    made before the create timeout is answered with an inactive project (so
    also when the project stays inactive), the wait ends with a timeout error,
    at the first round that would start at or after the create timeout, and
    Create returns that error wrapped, the data as they were. *)
Theorem create_poll_converges_or_times_out retryTimeout requestDelay d w r :
  onCreate w = Ok r ->
  let id := ID r in
  let w1 := log_request (CreateProjectReq (createBody d)) w in
  let conf := createStateConf retryTimeout requestDelay id d in
  (forall n p,
     (forall i, i < n -> exists q, onGet w (gets w + i) = Ok q /\ Status q = projectInactive) ->
     onGet w (gets w + n) = Ok p ->
     Status p = projectActive ->
     refreshTime retryTimeout requestDelay 0 n < Timeout TimeoutCreate d ->
     WaitForState conf w1 = (Ok p, afterGets id (S n) w1)
     /\ gets (afterGets id (S n) w1) = gets w + n + 1
     /\ resourceProjectCreate retryTimeout requestDelay d w
        = resourceProjectRead (SetId id d) (afterGets id (S n) w1))
  /\ ((forall i, refreshTime retryTimeout requestDelay 0 i < Timeout TimeoutCreate d ->
         exists q, onGet w (gets w + i) = Ok q /\ Status q = projectInactive) ->
      exists k last,
        WaitForState conf w1 = (Err (TimeoutError last [projectActive]), afterGets id k w1)
        /\ Timeout TimeoutCreate d <= refreshTime retryTimeout requestDelay 0 k
        /\ (forall j, j < k ->
              refreshTime retryTimeout requestDelay 0 j < Timeout TimeoutCreate d)
        /\ (0 < k -> last = projectInactive)
        /\ resourceProjectCreate retryTimeout requestDelay d w
           = (Some (Errorf ("error while waiting for project '" +:+ id
                            +:+ "' to be created: "
                            +:+ Error (TimeoutError last [projectActive]))),
              d, afterGets id k w1)).
Proof.
  intros Hr. cbn zeta. split.
  - intros n p Hpend Hp Hst Htime.
    assert (Hw : WaitForState (createStateConf retryTimeout requestDelay (ID r) d)
                   (log_request (CreateProjectReq (createBody d)) w)
                 = (Ok p, afterGets (ID r) (S n)
                            (log_request (CreateProjectReq (createBody d)) w))).
    { rewrite (WaitForState_converges _ n _ p projectActive).
      - rewrite create_refreshed. reflexivity.
      - intros i Hi. destruct (Hpend i Hi) as (q & Hq & Hqs).
        apply (create_pendingAt _ _ _ _ _ _ q); assumption.
      - rewrite create_refreshed. cbn [createStateConf Refresh].
        rewrite createRefresh_fst, afterGets_onGet, afterGets_gets.
        cbn [log_request onGet gets]. rewrite Hp, Hst. reflexivity.
      - reflexivity.
      - exact Htime. }
    split; [exact Hw|]. split.
    + rewrite afterGets_gets. cbn [log_request gets]. lia.
    + unfold resourceProjectCreate. cbn [CreateProject]. rewrite Hr. cbn zeta.
      rewrite Hw. reflexivity.
  - intros Hall.
    destruct (WaitForState_times_out (createStateConf retryTimeout requestDelay (ID r) d)
                (log_request (CreateProjectReq (createBody d)) w))
      as (k & last & Hw & Hk & Hj & _ & Hlast).
    { intros i Hi. destruct (Hall i Hi) as (q & Hq & Hqs).
      apply (create_pendingAt _ _ _ _ _ _ q); assumption. }
    rewrite create_refreshed in Hw.
    exists k, last. split; [exact Hw|]. split; [exact Hk|]. split; [exact Hj|]. split.
    + intros Hpos. specialize (Hlast Hpos).
      cbn [createStateConf Pending state_in existsb] in Hlast.
      rewrite orb_false_r in Hlast. apply String.eqb_eq. exact Hlast.
    + unfold resourceProjectCreate. cbn [CreateProject]. rewrite Hr. cbn zeta.
      rewrite Hw. reflexivity.
Qed.

Lemma create_poll_converges_or_times_out_witness :
  (WaitForState (createStateConf 1000 500 "p-1" planned)
     (log_request (CreateProjectReq (createBody planned)) slow_start)
   = (Ok (team_a "Active"),
      afterGets "p-1" 3 (log_request (CreateProjectReq (createBody planned)) slow_start))
   /\ gets (afterGets "p-1" 3
              (log_request (CreateProjectReq (createBody planned)) slow_start)) = 3
   /\ resourceProjectCreate 1000 500 planned slow_start
      = resourceProjectRead (SetId "p-1" planned)
          (afterGets "p-1" 3 (log_request (CreateProjectReq (createBody planned)) slow_start)))
  /\ (exists k last,
        WaitForState (createStateConf 1000 500 "p-1" planned)
          (log_request (CreateProjectReq (createBody planned)) never_active)
        = (Err (TimeoutError last [projectActive]),
           afterGets "p-1" k
             (log_request (CreateProjectReq (createBody planned)) never_active))
        /\ Timeout TimeoutCreate planned <= refreshTime 1000 500 0 k
        /\ (forall j, j < k -> refreshTime 1000 500 0 j < Timeout TimeoutCreate planned)
        /\ (0 < k -> last = projectInactive)
        /\ resourceProjectCreate 1000 500 planned never_active
           = (Some (Errorf ("error while waiting for project 'p-1' to be created: "
                            +:+ Error (TimeoutError last [projectActive]))),
              planned,
              afterGets "p-1" k
                (log_request (CreateProjectReq (createBody planned)) never_active))).
Proof.
  split.
  - destruct (create_poll_converges_or_times_out 1000 500 planned slow_start
                (team_a "Inactive") eq_refl) as [H _].
    apply (H 2 (team_a "Active")).
    + intros [|[|i]] Hi; [eexists; split; reflexivity .. | lia].
    + reflexivity.
    + reflexivity.
    + apply Nat.ltb_lt. reflexivity.
  - destruct (create_poll_converges_or_times_out 1000 500 planned never_active
                (team_a "Inactive") eq_refl) as [_ H].
    apply H. intros i _. exists (team_a "Inactive"). split; [|reflexivity].
    cbn. destruct i; reflexivity.
Defined.

(** C6 (as stated) fails at the timeout.  The delete call succeeds and every
    get finds the project still there.  The sixth get is the last one that
    starts before the delete timeout; Delete then fails, and the error it
    returns is not a timeout error but the error of that last attempt. *)
Lemma delete_timeout_returns_last_attempt_error :
  onDelete never_gone = None
  /\ forallb (fun i => match onGet never_gone i with Ok _ => true | Err _ => false end)
       (seq 0 7) = true
  /\ (retryTime 5 <? Timeout TimeoutDelete tracked) = true
  /\ (Timeout TimeoutDelete tracked <=? retryTime 6) = true
  /\ gets (snd (resourceProjectDelete tracked never_gone)) = 6
  /\ fst (fst (resourceProjectDelete tracked never_gone))
     = Some (Errorf "project 'p-1' still exists, currently in 'Active' state").
Proof. vm_compute. repeat split. Qed.

(** C6 (as amended).  After a successful delete call, when the gets of the
    wait are answered with the project [n] times and then with "forbidden" or
    "not found", and that last get is made before the delete timeout, Delete
    returns no error.  When every get made before the delete timeout is
    answered with the project, the wait inside ends by the timeout, at the
    first round that would start at or after the delete timeout, and Delete
    fails; the error it returns is the one of the last round, which tells
    that the project still exists and the state last seen, and is the
    timeout error only when no round was made.  A get answered with the
    project makes the round return a retryable error, so the wait goes on. *)
Theorem delete_wait_converges_or_times_out d w :
  onDelete w = None ->
  let w1 := log_request (DeleteProjectReq (Id d)) w in
  (forall n,
     (forall i, i < n -> exists q, onGet w (gets w + i) = Ok q) ->
     isAbsent (onGet w (gets w + n)) = true ->
     retryTime n < Timeout TimeoutDelete d ->
     resourceProjectDelete d w = (None, d, afterGets (Id d) (S n) w1))
  /\ ((forall i, retryTime i < Timeout TimeoutDelete d ->
         exists q, onGet w (gets w + i) = Ok q) ->
      exists k last e,
        fst (WaitForState (retryConf (Timeout TimeoutDelete d) (deleteAttempt d)) (None, w1))
        = Err (TimeoutError last ["success"])
        /\ resourceProjectDelete d w = (Some e, d, afterGets (Id d) k w1)
        /\ Timeout TimeoutDelete d <= retryTime k
        /\ (forall j, j < k -> retryTime j < Timeout TimeoutDelete d)
        /\ (k = 0 -> e = TimeoutError "" ["success"])
        /\ (forall m q, k = S m -> onGet w (gets w + m) = Ok q ->
              e = Errorf ("project '" +:+ Id d +:+ "' still exists, currently in '"
                          +:+ Status q +:+ "' state")))
  /\ (forall w' q,
        onGet w' (gets w') = Ok q ->
        fst (deleteAttempt d w')
        = RetryableError (Errorf ("project '" +:+ Id d +:+ "' still exists, currently in '"
                                  +:+ Status q +:+ "' state"))).
Proof.
  intros Hd. cbn zeta. split; [|split].
  - intros n Hfound Ha Htime. unfold resourceProjectDelete. cbn [DeleteProject].
    rewrite Hd.
    rewrite (Retry_succeeds _ (deleteAttempt d) n).
    + rewrite delete_attempted. reflexivity.
    + apply (delete_retryable_prefix d _ (fun i => i < n)). exact Hfound.
    + rewrite delete_attempted. apply deleteAttempt_absent.
      rewrite afterGets_onGet, afterGets_gets. exact Ha.
    + exact Htime.
  - intros Hall.
    destruct (Retry_times_out (Timeout TimeoutDelete d) (deleteAttempt d)
                (log_request (DeleteProjectReq (Id d)) w))
      as (k & last & e & Hw & HR & Hk & Hj & H0 & HS).
    { apply (delete_retryable_prefix d _
               (fun i => retryTime i < Timeout TimeoutDelete d)).
      exact Hall. }
    exists k, last, e. split; [exact Hw|]. split; [|split; [|split; [|split]]]; auto.
    + unfold resourceProjectDelete. cbn [DeleteProject]. rewrite Hd, HR, delete_attempted.
      reflexivity.
    + intros m q Hm Hq. specialize (HS m Hm).
      rewrite delete_attempted, (deleteAttempt_found d _ q) in HS.
      * injection HS as <-. reflexivity.
      * rewrite afterGets_onGet, afterGets_gets. exact Hq.
  - intros w' q Hq. apply deleteAttempt_found. exact Hq.
Qed.

Lemma delete_wait_converges_or_times_out_witness :
  resourceProjectDelete tracked lingering
  = (None, tracked, afterGets "p-1" 3 (log_request (DeleteProjectReq "p-1") lingering))
  /\ (exists k last e,
        fst (WaitForState (retryConf (Timeout TimeoutDelete tracked) (deleteAttempt tracked))
               (None, log_request (DeleteProjectReq "p-1") never_gone))
        = Err (TimeoutError last ["success"])
        /\ resourceProjectDelete tracked never_gone
           = (Some e, tracked,
              afterGets "p-1" k (log_request (DeleteProjectReq "p-1") never_gone))
        /\ Timeout TimeoutDelete tracked <= retryTime k
        /\ (forall j, j < k -> retryTime j < Timeout TimeoutDelete tracked)
        /\ (k = 0 -> e = TimeoutError "" ["success"])
        /\ (forall m q, k = S m -> onGet never_gone (gets never_gone + m) = Ok q ->
              e = Errorf ("project '" +:+ Id tracked +:+ "' still exists, currently in '"
                          +:+ Status q +:+ "' state"))).
Proof.
  split.
  - destruct (delete_wait_converges_or_times_out tracked lingering eq_refl) as (H & _).
    apply (H 2).
    + intros [|[|i]] Hi; [eexists; reflexivity .. | lia].
    + reflexivity.
    + apply Nat.ltb_lt. reflexivity.
  - destruct (delete_wait_converges_or_times_out tracked never_gone eq_refl) as (_ & H & _).
    apply H. intros i _. exists (team_a "Active").
    cbn. destruct i; reflexivity.
Defined.

(** C4.  Where the resource classifies the error of a get, in Read and in
    the wait of Delete, "forbidden" and "not found" are one: two remote sides
    that answer alike, except that where one says 403 the other may say 404,
    make Read, and Delete, return the same error or none and leave the same
    data, after the same requests. *)
Theorem forbidden_like_not_found d w1 w2 :
  alike w1 w2 ->
  (fst (resourceProjectRead d w1) = fst (resourceProjectRead d w2)
   /\ alike (snd (resourceProjectRead d w1)) (snd (resourceProjectRead d w2)))
  /\ (fst (resourceProjectDelete d w1) = fst (resourceProjectDelete d w2)
      /\ alike (snd (resourceProjectDelete d w1)) (snd (resourceProjectDelete d w2))).
Proof.
  intros Hal. split; [apply read_alike | apply delete_alike]; exact Hal.
Qed.

Lemma forbidden_like_not_found_witness :
  (fst (resourceProjectRead tracked hidden) = fst (resourceProjectRead tracked gone)
   /\ alike (snd (resourceProjectRead tracked hidden))
        (snd (resourceProjectRead tracked gone)))
  /\ (fst (resourceProjectDelete tracked hidden) = fst (resourceProjectDelete tracked gone)
      /\ alike (snd (resourceProjectDelete tracked hidden))
           (snd (resourceProjectDelete tracked gone))).
Proof.
  apply (forbidden_like_not_found tracked hidden gone).
  unfold alike. repeat split.
  intros n. right. destruct n; split; reflexivity.
Defined.

(** ** Further properties of the operations *)

Section EngineTrace.
Context {St Res : Type}.
Implicit Types (conf : StateChangeConf St Res) (s : St).

(** After [n] pending rounds, a refresh made in time that reports a state
    that is neither a target nor pending ends the wait with an
    [UnexpectedStateError]. *)
Lemma WaitForState_unexpected conf n s res st :
  (forall i, i < n -> pendingAt conf (refreshed conf i s)) ->
  fst (Refresh conf (refreshed conf n s)) = Ok (res, st) ->
  state_in st (Target conf) = false ->
  state_in st (Pending conf) = false ->
  Pending conf <> [] ->
  refreshTime (MinTimeout conf) (Delay conf) 0 n < conf_Timeout conf ->
  WaitForState conf s
  = (Err (UnexpectedStateError st (Target conf)), refreshed conf (S n) s).
Proof.
  intros Hp Hr Htg Hpd Hne Ht. unfold WaitForState.
  pose proof (refreshTime_ge (MinTimeout conf) n (Delay conf) 0) as Hge.
  destruct (refreshLoop_skip conf n (conf_Timeout conf) (Delay conf) 0 "" s Hp
              (refreshTime_before _ _ _ _ _ Ht))
    as (c' & w' & l' & Hc & _ & _ & Heq); [lia|].
  specialize (Hc 0). cbn [refreshTime] in Hc. rewrite Nat.add_0_r in Hc.
  rewrite Heq, refreshLoop_unfold.
  destruct (Nat.leb_spec (conf_Timeout conf) (c' + w')); [lia|].
  destruct (conf_Timeout conf - n) as [|fuel] eqn:Hfuel; [lia|].
  rewrite refreshed_S.
  destruct (Refresh conf (refreshed conf n s)) as [r s']. cbn [fst snd] in *. subst r.
  rewrite Htg, Hpd. destruct (Pending conf); [congruence | reflexivity].
Qed.

(** The rounds of a wait: it ends in the state after some number [k] of
    refreshes, every one of them made before the timeout, and all but the
    last answered with a state that is not a target. *)
Lemma refreshLoop_trace conf : forall fuel clock wait last s,
  exists k,
    snd (refreshLoop conf fuel clock wait last s) = refreshed conf k s
    /\ (forall i, i < k -> refreshTime (MinTimeout conf) clock wait i < conf_Timeout conf)
    /\ (forall i, S i < k ->
          exists res st,
            fst (Refresh conf (refreshed conf i s)) = Ok (res, st)
            /\ state_in st (Target conf) = false
            /\ state_in st (Pending conf) || (length (Pending conf) =? 0) = true).
Proof.
  induction fuel as [|fuel IH]; intros clock wait last s; rewrite refreshLoop_unfold;
    destruct (Nat.leb_spec (conf_Timeout conf) (clock + wait)) as [Hle|Hlt];
    try (exists 0; split; [reflexivity | split; intros; lia]).
  assert (Hone : exists k,
             snd (Refresh conf s) = refreshed conf k s
             /\ (forall i, i < k ->
                   refreshTime (MinTimeout conf) clock wait i < conf_Timeout conf)
             /\ (forall i, S i < k ->
                   exists res st,
                     fst (Refresh conf (refreshed conf i s)) = Ok (res, st)
                     /\ state_in st (Target conf) = false
                     /\ state_in st (Pending conf) || (length (Pending conf) =? 0)
                        = true)).
  { exists 1. split; [reflexivity|].
    split; intros i Hi; [|lia].
    assert (i = 0) as -> by lia. exact Hlt. }
  destruct (Refresh conf s) as [[[res st]|e] s'] eqn:HR.
  - destruct (state_in st (Target conf)) eqn:Htg; [exact Hone|].
    destruct (state_in st (Pending conf) || (length (Pending conf) =? 0)) eqn:Hpd;
      [|exact Hone].
    destruct (IH (clock + wait) (nextWait (MinTimeout conf) (firstWait wait)) st s')
      as (k & Hk & Htime & Hrounds).
    exists (S k). cbn [refreshed]. rewrite HR. cbn [snd]. split; [exact Hk|]. split.
    + intros [|i] Hi; cbn [refreshTime]; [exact Hlt | apply Htime; lia].
    + intros [|i] Hi.
      * exists res, st. cbn [refreshed]. rewrite HR. auto.
      * cbn [refreshed]. rewrite HR. cbn [snd]. apply Hrounds. lia.
  - exact Hone.
Qed.
End EngineTrace.

(** The attempts of [Retry]: it ends in the state after some number [k] of
    attempts, every one of them made before the timeout, and all but the last
    answered with a retryable error. *)
Lemma Retry_trace {St : Type} timeout (f : St -> option RetryError * St) (s : St) :
  exists k,
    snd (Retry timeout f s) = attempted f k s
    /\ (forall i, i < k -> retryTime i < timeout)
    /\ (forall i, S i < k -> exists err, fst (f (attempted f i s)) = RetryableError err).
Proof.
  unfold Retry, WaitForState.
  destruct (refreshLoop_trace (retryConf timeout f) timeout 0 0 "" (None, s))
    as (k & Hk & Htime & Hrounds).
  cbn [conf_Timeout retryConf Delay] in *.
  exists k. split; [|split].
  - destruct (refreshLoop _ _ _ _ _ _) as [r [e s']]. cbn [snd] in Hk.
    pose proof (retry_refreshed timeout f k None s) as Hs.
    rewrite <- Hk in Hs. cbn [snd] in Hs.
    destruct e; cbn [snd]; auto.
  - exact Htime.
  - intros i Hi. destruct (Hrounds i Hi) as (res & st & Hr & Htg & _).
    destruct (refreshed (retryConf timeout f) i (None, s)) as [e' s'] eqn:Hs.
    pose proof (retry_refreshed timeout f i None s) as Hsnd.
    rewrite Hs in Hsnd. cbn [snd] in Hsnd. subst s'.
    rewrite retry_Refresh_fst in Hr.
    destruct (fst (f (attempted f i s))) as [[err retryable]|].
    + cbn [Retryable RetryErr] in Hr. destruct retryable; [|discriminate].
      exists err. reflexivity.
    + injection Hr as <- <-. discriminate.
Qed.

(** *** Read *)

Lemma readAttempt_fatal d w e :
  onGet w (gets w) = Err e ->
  isTransient (Err e) = false ->
  isAbsent (Err e) = false ->
  readAttempt (d, w) = (NonRetryableError e, (d, snd (GetProject (Id d) w))).
Proof.
  intros He Ht Ha. cbn [readAttempt GetProject snd]. rewrite He.
  destruct e as [t1 t2 m| | |code m| | | |]; try reflexivity.
  - cbn [isTransient] in Ht. rewrite Ht. reflexivity.
  - cbn [isAbsent] in Ha. rewrite Ha. reflexivity.
Qed.

Lemma readAttempt_net d w t1 t2 msg :
  onGet w (gets w) = Err (NetError t1 t2 msg) ->
  t1 || t2 = true ->
  readAttempt (d, w)
  = (RetryableError
       (Errorf ("network issue occured while trying to read project '"
                +:+ Id d +:+ "': " +:+ msg)),
     (d, snd (GetProject (Id d) w))).
Proof.
  intros He Ht. cbn [readAttempt GetProject snd]. rewrite He, Ht. reflexivity.
Qed.

Lemma readAttempt_retryable_inv d w err :
  fst (readAttempt (d, w)) = RetryableError err ->
  isTransient (onGet w (gets w)) = true.
Proof.
  cbn [readAttempt GetProject snd].
  destruct (onGet w (gets w)) as [r|e]; [discriminate|].
  destruct e as [t1 t2 m| | |code m| | | |]; try discriminate.
  - cbn [isTransient]. destruct (t1 || t2); [reflexivity | discriminate].
  - destruct ((code =? StatusForbidden)%Z || (code =? StatusNotFound)%Z); discriminate.
Qed.

(** A run of retryable attempts of a read is a run of transient answers. *)
Lemma read_retryable_run d w n :
  (forall i, i < n ->
     exists err, fst (readAttempt (attempted readAttempt i (d, w))) = RetryableError err) ->
  forall i, i < n -> isTransient (onGet w (gets w + i)) = true.
Proof.
  induction n as [|n IH]; intros Hr i Hi; [lia|].
  assert (Hbefore : forall j, j < n -> isTransient (onGet w (gets w + j)) = true).
  { apply IH. intros j Hj. apply Hr. lia. }
  destruct (decide (i = n)) as [->|Hne]; [|apply Hbefore; lia].
  destruct (Hr n) as [err Herr]; [lia|].
  rewrite (read_attempted_transient d n w Hbefore) in Herr.
  apply readAttempt_retryable_inv in Herr.
  rewrite afterGets_onGet, afterGets_gets in Herr. exact Herr.
Qed.

(** After transient answers only, the attempts of a read have made gets for
    the stored identity and have left the data alone. *)
Lemma read_attempted_world d w k :
  (forall i, S i < k -> isTransient (onGet w (gets w + i)) = true) ->
  snd (attempted readAttempt k (d, w)) = afterGets (Id d) k w.
Proof.
  intros Ht. destruct k as [|k]; [reflexivity|].
  rewrite attempted_S, (read_attempted_transient d k w) by (intros i Hi; apply Ht; lia).
  rewrite readAttempt_world, afterGets_S. reflexivity.
Qed.

(** Read returns an error that it neither retries nor takes for "absent" as
    the client gave it: after any number of transient errors, such an answer
    got before the read timeout ends the read with that very value, the data
    as they were. *)
Theorem read_returns_fatal_error_as_is d w n e :
  (forall i, i < n -> isTransient (onGet w (gets w + i)) = true) ->
  onGet w (gets w + n) = Err e ->
  isTransient (Err e) = false ->
  isAbsent (Err e) = false ->
  retryTime n < Timeout TimeoutRead d ->
  resourceProjectRead d w = (Some e, d, afterGets (Id d) (S n) w).
Proof.
  intros Ht He Hnt Hna Htime.
  rewrite (read_decided d w n Ht) by (rewrite ?He; auto).
  unfold readOnce. rewrite (readAttempt_fatal _ _ e), afterGets_S; auto.
  rewrite afterGets_onGet, afterGets_gets. exact He.
Qed.

Lemma read_returns_fatal_error_as_is_witness :
  resourceProjectRead tracked flaky_then_broken
  = (Some server_error, tracked, afterGets "p-1" 2 flaky_then_broken).
Proof.
  apply (read_returns_fatal_error_as_is tracked flaky_then_broken 1 server_error).
  - intros [|i] Hi; [reflexivity | lia].
  - reflexivity.
  - reflexivity.
  - reflexivity.
  - apply Nat.ltb_lt. reflexivity.
Defined.

(** A read that gets the project overwrites every attribute with what the
    remote side reports (a nil label map as the empty map, the timestamps in
    their text form) and returns no error; the identity, the prior state and
    the timeouts stay. *)
Theorem read_copies_project d w n r :
  (forall i, i < n -> isTransient (onGet w (gets w + i)) = true) ->
  onGet w (gets w + n) = Ok r ->
  retryTime n < Timeout TimeoutRead d ->
  let d' := snd (fst (resourceProjectRead d w)) in
  fst (fst (resourceProjectRead d w)) = None
  /\ Id d' = Id d
  /\ Get "name" d' = Some (VString (Name r))
  /\ Get "labels" d' = Some (VMap (default ∅ (Labels r)))
  /\ Get "status" d' = Some (VString (Status r))
  /\ Get "creation_timestamp" d' = Some (VString (DateTime_String (CreationTimestamp r)))
  /\ Get "deletion_timestamp" d' = Some (VString (DateTime_String (DeletionTimestamp r)))
  /\ rd_old d' = rd_old d
  /\ rd_timeouts d' = rd_timeouts d.
Proof.
  intros Ht Hr Htime. rewrite (read_found d w n r Ht Hr Htime). cbn. repeat split.
Qed.

Lemma read_copies_project_witness :
  Get "status" (snd (fst (resourceProjectRead tracked flaky_then_active)))
  = Some (VString "Active").
Proof.
  apply (read_copies_project tracked flaky_then_active 1 (team_a "Active")).
  - intros [|i] Hi; [reflexivity | lia].
  - reflexivity.
  - apply Nat.ltb_lt. reflexivity.
Defined.

(** Reading again changes nothing when the remote side still reports the
    same project: a second read, run on what the first one left, returns no
    error and the same data. *)
Theorem read_again_changes_nothing d w n m r :
  (forall i, i < n -> isTransient (onGet w (gets w + i)) = true) ->
  onGet w (gets w + n) = Ok r ->
  retryTime n < Timeout TimeoutRead d ->
  (forall i, i < m -> isTransient (onGet w (gets w + S n + i)) = true) ->
  onGet w (gets w + S n + m) = Ok r ->
  retryTime m < Timeout TimeoutRead d ->
  let d1 := snd (fst (resourceProjectRead d w)) in
  let w1 := snd (resourceProjectRead d w) in
  resourceProjectRead d1 w1 = (None, d1, afterGets (Id d) (S m) w1).
Proof.
  intros Ht Hr Htime Ht2 Hr2 Htime2. rewrite (read_found d w n r Ht Hr Htime).
  cbn [fst snd].
  rewrite (read_found (materialized r d) (afterGets (Id d) (S n) w) m r).
  - reflexivity.
  - intros i Hi. rewrite afterGets_onGet, afterGets_gets. apply Ht2, Hi.
  - rewrite afterGets_onGet, afterGets_gets. exact Hr2.
  - exact Htime2.
Qed.

Lemma read_again_changes_nothing_witness :
  resourceProjectRead (snd (fst (resourceProjectRead tracked never_gone)))
    (snd (resourceProjectRead tracked never_gone))
  = (None, snd (fst (resourceProjectRead tracked never_gone)),
     afterGets "p-1" 1 (snd (resourceProjectRead tracked never_gone))).
Proof.
  apply (read_again_changes_nothing tracked never_gone 0 0 (team_a "Active")).
  - intros i Hi. lia.
  - reflexivity.
  - apply Nat.ltb_lt. reflexivity.
  - intros i Hi. lia.
  - reflexivity.
  - apply Nat.ltb_lt. reflexivity.
Defined.

(** When the remote side cannot be reached until the read timeout, Read
    returns the error it built for the last attempt: a text that names the
    project and the read and carries the text of the transport error. *)
Theorem read_times_out_with_network_issue d w :
  0 < Timeout TimeoutRead d ->
  (forall i, retryTime i < Timeout TimeoutRead d ->
     isTransient (onGet w (gets w + i)) = true) ->
  exists k t1 t2 msg,
    onGet w (gets w + k) = Err (NetError t1 t2 msg)
    /\ retryTime k < Timeout TimeoutRead d
    /\ Timeout TimeoutRead d <= retryTime (S k)
    /\ resourceProjectRead d w
       = (Some (Errorf ("network issue occured while trying to read project '"
                        +:+ Id d +:+ "': " +:+ msg)),
          d, afterGets (Id d) (S k) w).
Proof.
  intros Hpos Hall.
  destruct (first_round_after 500 0 0 (Timeout TimeoutRead d)) as (K & HK & Hj).
  destruct K as [|k]; [cbn in HK; lia|].
  assert (Ht : forall i, i < S k -> isTransient (onGet w (gets w + i)) = true).
  { intros i Hi. apply Hall, Hj, Hi. }
  destruct (Retry_times_out_at (Timeout TimeoutRead d) readAttempt (S k) (d, w)
              (read_retryable_prefix d w (S k) Ht) Hj HK) as (last & e & _ & HR & _ & HS).
  specialize (HS k eq_refl).
  rewrite (read_attempted_transient d k w) in HS by (intros i Hi; apply Ht; lia).
  pose proof (Ht k) as Hk. specialize (Hk ltac:(lia)).
  destruct (onGet w (gets w + k)) as [r|[t1 t2 msg| | | | | | |]] eqn:Hans;
    try discriminate.
  cbn [isTransient] in Hk.
  rewrite (readAttempt_net d _ t1 t2 msg) in HS;
    [|rewrite afterGets_onGet, afterGets_gets; exact Hans | exact Hk].
  injection HS as <-.
  exists k, t1, t2, msg. split; [exact Hans|]. split; [apply Hj; lia|]. split; [exact HK|].
  unfold resourceProjectRead. rewrite HR, (read_attempted_transient d (S k) w Ht).
  reflexivity.
Qed.

Lemma read_times_out_with_network_issue_witness :
  exists k t1 t2 msg,
    onGet unreachable (gets unreachable + k) = Err (NetError t1 t2 msg)
    /\ retryTime k < Timeout TimeoutRead tracked
    /\ Timeout TimeoutRead tracked <= retryTime (S k)
    /\ resourceProjectRead tracked unreachable
       = (Some (Errorf ("network issue occured while trying to read project '"
                        +:+ Id tracked +:+ "': " +:+ msg)),
          tracked, afterGets (Id tracked) (S k) unreachable).
Proof.
  apply (read_times_out_with_network_issue tracked unreachable).
  - apply Nat.ltb_lt. reflexivity.
  - intros i _. cbn. destruct i; reflexivity.
Defined.

Lemma afterGets_requests id k : forall w,
  sent (afterGets id k w) = (repeat (GetProjectReq id) k ++ sent w)%list.
Proof.
  induction k as [|k IH]; intros w; [reflexivity|].
  cbn [afterGets]. rewrite IH. cbn [GetProject snd sent].
  change (GetProjectReq id :: sent w) with ([GetProjectReq id] ++ sent w)%list.
  rewrite app_assoc, <- repeat_cons. reflexivity.
Qed.

(** The gets of a read are for the stored identity, are started before the
    read timeout, and follow one another only after a transient error. *)
Lemma read_trace d w :
  exists k,
    snd (resourceProjectRead d w) = afterGets (Id d) k w
    /\ (forall i, i < k -> retryTime i < Timeout TimeoutRead d)
    /\ (forall i, S i < k -> isTransient (onGet w (gets w + i)) = true).
Proof.
  destruct (Retry_trace (Timeout TimeoutRead d) readAttempt (d, w))
    as (k & Hk & Htime & Hrounds).
  assert (Ht : forall i, S i < k -> isTransient (onGet w (gets w + i)) = true).
  { intros i Hi. apply (read_retryable_run d w (k - 1)); [|lia].
    intros j Hj. apply Hrounds. lia. }
  exists k. split; [|split; assumption].
  unfold resourceProjectRead.
  destruct (Retry _ readAttempt (d, w)) as [e [d' w']]. cbn [snd] in *.
  pose proof (read_attempted_world d w k Ht) as Hw.
  rewrite <- Hk in Hw. exact Hw.
Qed.

(** The gets of a read: Read asks for the stored identity only, starts every
    get before the read timeout, and makes another get only after a transient
    error. *)
Theorem read_gets d w :
  exists k,
    snd (resourceProjectRead d w) = afterGets (Id d) k w
    /\ sent (snd (resourceProjectRead d w))
       = (repeat (GetProjectReq (Id d)) k ++ sent w)%list
    /\ gets (snd (resourceProjectRead d w)) = gets w + k
    /\ (forall i, i < k -> retryTime i < Timeout TimeoutRead d)
    /\ (forall i, S i < k -> isTransient (onGet w (gets w + i)) = true).
Proof.
  destruct (read_trace d w) as (k & Hk & Htime & Hrounds).
  exists k. rewrite Hk, afterGets_requests, afterGets_gets. auto.
Qed.

(** *** Delete *)

Lemma deleteAttempt_fatal d w e :
  onGet w (gets w) = Err e ->
  isAbsent (Err e) = false ->
  fst (deleteAttempt d w) = NonRetryableError e.
Proof.
  intros He Ha. unfold deleteAttempt. cbn [GetProject]. rewrite He.
  destruct e as [| | |code m| | | |]; try reflexivity.
  cbn [isAbsent] in Ha. rewrite Ha. reflexivity.
Qed.

Lemma deleteAttempt_retryable_inv d w err :
  fst (deleteAttempt d w) = RetryableError err -> exists q, onGet w (gets w) = Ok q.
Proof.
  unfold deleteAttempt. cbn [GetProject].
  destruct (onGet w (gets w)) as [r|e]; [eauto|].
  destruct e as [| | |code m| | | |]; try discriminate.
  destruct ((code =? StatusForbidden)%Z || (code =? StatusNotFound)%Z); discriminate.
Qed.

(** The wait of Delete stops at any error of a get other than "forbidden" and
    "not found", a transient transport error included: after the project was
    still seen any number of times, such an answer got before the delete
    timeout makes Delete return that very value. *)
Theorem delete_returns_get_error_as_is d w n e :
  onDelete w = None ->
  (forall i, i < n -> exists q, onGet w (gets w + i) = Ok q) ->
  onGet w (gets w + n) = Err e ->
  isAbsent (Err e) = false ->
  retryTime n < Timeout TimeoutDelete d ->
  resourceProjectDelete d w
  = (Some e, d, afterGets (Id d) (S n) (log_request (DeleteProjectReq (Id d)) w)).
Proof.
  intros Hd Hfound He Ha Htime. unfold resourceProjectDelete. cbn [DeleteProject].
  rewrite Hd.
  rewrite (Retry_aborts _ (deleteAttempt d) n _ e).
  - rewrite delete_attempted. reflexivity.
  - apply (delete_retryable_prefix d _ (fun i => i < n)). exact Hfound.
  - rewrite delete_attempted. apply deleteAttempt_fatal; [|exact Ha].
    rewrite afterGets_onGet, afterGets_gets. exact He.
  - exact Htime.
Qed.

Lemma delete_returns_get_error_as_is_witness :
  resourceProjectDelete tracked lingering_then_broken
  = (Some server_error, tracked,
     afterGets "p-1" 2 (log_request (DeleteProjectReq "p-1") lingering_then_broken)).
Proof.
  apply (delete_returns_get_error_as_is tracked lingering_then_broken 1 server_error).
  - reflexivity.
  - intros [|i] Hi; [eexists; reflexivity | lia].
  - reflexivity.
  - reflexivity.
  - apply Nat.ltb_lt. reflexivity.
Defined.

(** The wait of Delete makes gets for the stored identity, each started
    before the delete timeout, and another one only after a get that still
    found the project. *)
Lemma delete_wait_trace d w :
  exists k,
    snd (Retry (Timeout TimeoutDelete d) (deleteAttempt d) w) = afterGets (Id d) k w
    /\ (forall i, i < k -> retryTime i < Timeout TimeoutDelete d)
    /\ (forall i, S i < k -> exists q, onGet w (gets w + i) = Ok q).
Proof.
  destruct (Retry_trace (Timeout TimeoutDelete d) (deleteAttempt d) w)
    as (k & Hk & Htime & Hrounds).
  exists k. rewrite Hk, delete_attempted. split; [reflexivity|]. split; [exact Htime|].
  intros i Hi. destruct (Hrounds i Hi) as [err Herr].
  rewrite delete_attempted in Herr. apply deleteAttempt_retryable_inv in Herr.
  rewrite afterGets_onGet, afterGets_gets in Herr. exact Herr.
Qed.

(** What Delete does to its surroundings.  It never changes the resource
    data: the identity is still stored when it returns.  It sends the delete
    request and then only gets for the stored identity: none when the delete
    call failed, every one started before the delete timeout, and another one
    only after a get that still found the project. *)
Theorem delete_requests d w :
  snd (fst (resourceProjectDelete d w)) = d
  /\ exists k,
       snd (resourceProjectDelete d w)
       = afterGets (Id d) k (log_request (DeleteProjectReq (Id d)) w)
       /\ sent (snd (resourceProjectDelete d w))
          = (repeat (GetProjectReq (Id d)) k ++ DeleteProjectReq (Id d) :: sent w)%list
       /\ (onDelete w <> None -> k = 0)
       /\ (forall i, i < k -> retryTime i < Timeout TimeoutDelete d)
       /\ (forall i, S i < k -> exists q, onGet w (gets w + i) = Ok q).
Proof.
  unfold resourceProjectDelete. cbn [DeleteProject].
  destruct (onDelete w) as [e|].
  - split; [reflexivity|]. exists 0. split; [reflexivity|]. split; [reflexivity|].
    split; [reflexivity|]. split; intros; lia.
  - destruct (delete_wait_trace d (log_request (DeleteProjectReq (Id d)) w))
      as (k & Hk & Htime & Hrounds).
    destruct (Retry _ (deleteAttempt d) _) as [[e|] w2]; cbn [fst snd] in *; subst w2;
      (split; [reflexivity|]; exists k; rewrite afterGets_requests;
       split; [reflexivity|]; split; [reflexivity|]; split; [congruence|];
       split; assumption).
Qed.

(** *** Create *)

Lemma afterGets_add id a : forall b w,
  afterGets id a (afterGets id b w) = afterGets id (b + a) w.
Proof.
  intros b. induction b as [|b IH]; intros w; [reflexivity|].
  cbn [afterGets Nat.add]. apply IH.
Qed.

Lemma afterGets_sent id k : forall w,
  exists l,
    sent (afterGets id k w) = (l ++ sent w)%list
    /\ forallb isGetReq l = true
    /\ length l = k.
Proof.
  induction k as [|k IH]; intros w.
  - exists []. auto.
  - cbn [afterGets]. destruct (IH (snd (GetProject id w))) as (l & Hl & Hget & Hlen).
    exists (l ++ [GetProjectReq id])%list. rewrite Hl. cbn [GetProject snd sent].
    rewrite <- app_assoc. split; [reflexivity|].
    rewrite forallb_app, Hget, length_app, Hlen. cbn. split; [reflexivity | lia].
Qed.

Lemma state_in_one st target : state_in st [target] = false <-> st <> target.
Proof.
  cbn [state_in existsb]. rewrite orb_false_r. apply String.eqb_neq.
Qed.

Section CreateOutcomes.
Variables (retryTimeout requestDelay : nat).
Implicit Types (d : ResourceData) (w : World).

(** The create wait after [n] inactive answers and an active one. *)
Lemma create_wait_converges d w id n p :
  (forall i, i < n -> exists q, onGet w (gets w + i) = Ok q /\ Status q = projectInactive) ->
  onGet w (gets w + n) = Ok p ->
  Status p = projectActive ->
  refreshTime retryTimeout requestDelay 0 n < Timeout TimeoutCreate d ->
  WaitForState (createStateConf retryTimeout requestDelay id d) w
  = (Ok p, afterGets id (S n) w).
Proof.
  intros Hpend Hp Hst Htime.
  rewrite (WaitForState_converges _ n _ p projectActive).
  - rewrite create_refreshed. reflexivity.
  - intros i Hi. destruct (Hpend i Hi) as (q & Hq & Hqs).
    apply (create_pendingAt _ _ _ _ _ _ q); assumption.
  - rewrite create_refreshed. cbn [createStateConf Refresh].
    rewrite createRefresh_fst, afterGets_onGet, afterGets_gets, Hp, Hst. reflexivity.
  - reflexivity.
  - exact Htime.
Qed.

(** Create then runs Read with the identity the remote side assigned. *)
Lemma create_then_read d w r n p :
  onCreate w = Ok r ->
  (forall i, i < n -> exists q, onGet w (gets w + i) = Ok q /\ Status q = projectInactive) ->
  onGet w (gets w + n) = Ok p ->
  Status p = projectActive ->
  refreshTime retryTimeout requestDelay 0 n < Timeout TimeoutCreate d ->
  resourceProjectCreate retryTimeout requestDelay d w
  = resourceProjectRead (SetId (ID r) d)
      (afterGets (ID r) (S n) (log_request (CreateProjectReq (createBody d)) w)).
Proof.
  intros Hr Hpend Hp Hst Htime.
  unfold resourceProjectCreate. cbn [CreateProject]. rewrite Hr. cbn zeta.
  rewrite (create_wait_converges d _ (ID r) n p); auto.
Qed.
End CreateOutcomes.

(** The wait of Create knows the states Inactive and Active only: a project
    reported in any other state, by a get made before the create timeout,
    makes Create fail with an error that names that state, and no identity is
    stored. *)
Theorem create_rejects_unknown_state retryTimeout requestDelay d w r n p :
  onCreate w = Ok r ->
  (forall i, i < n -> exists q, onGet w (gets w + i) = Ok q /\ Status q = projectInactive) ->
  onGet w (gets w + n) = Ok p ->
  Status p <> projectInactive ->
  Status p <> projectActive ->
  refreshTime retryTimeout requestDelay 0 n < Timeout TimeoutCreate d ->
  resourceProjectCreate retryTimeout requestDelay d w
  = (Some (Errorf ("error while waiting for project '" +:+ ID r +:+ "' to be created: "
                   +:+ Error (UnexpectedStateError (Status p) [projectActive]))),
     d, afterGets (ID r) (S n) (log_request (CreateProjectReq (createBody d)) w)).
Proof.
  intros Hr Hpend Hp Hni Hna Htime.
  unfold resourceProjectCreate. cbn [CreateProject]. rewrite Hr. cbn zeta.
  rewrite (WaitForState_unexpected _ n _ p (Status p)).
  - rewrite create_refreshed. reflexivity.
  - intros i Hi. destruct (Hpend i Hi) as (q & Hq & Hqs).
    apply (create_pendingAt _ _ _ _ _ _ q); assumption.
  - rewrite create_refreshed. cbn [createStateConf Refresh].
    rewrite createRefresh_fst, afterGets_onGet, afterGets_gets. cbn [log_request onGet gets].
    rewrite Hp. reflexivity.
  - apply state_in_one. exact Hna.
  - apply state_in_one. exact Hni.
  - discriminate.
  - exact Htime.
Qed.

Lemma create_rejects_unknown_state_witness :
  resourceProjectCreate 1000 500 planned terminating
  = (Some (Errorf ("error while waiting for project 'p-1' to be created: "
                   +:+ Error (UnexpectedStateError "Terminating" [projectActive]))),
     planned,
     afterGets "p-1" 2 (log_request (CreateProjectReq (createBody planned)) terminating)).
Proof.
  apply (create_rejects_unknown_state 1000 500 planned terminating
           (team_a "Inactive") 1 (team_a "Terminating")).
  - reflexivity.
  - intros [|i] Hi; [eexists; split; reflexivity | lia].
  - reflexivity.
  - discriminate.
  - discriminate.
  - apply Nat.ltb_lt. reflexivity.
Defined.

(** The wait of Create has no notion of "absent" or "transient": any error
    of a get made before the create timeout, "not found" and "forbidden"
    included, makes Create fail with that error wrapped, and no identity is
    stored. *)
Theorem create_fails_on_get_error retryTimeout requestDelay d w r n e :
  onCreate w = Ok r ->
  (forall i, i < n -> exists q, onGet w (gets w + i) = Ok q /\ Status q = projectInactive) ->
  onGet w (gets w + n) = Err e ->
  refreshTime retryTimeout requestDelay 0 n < Timeout TimeoutCreate d ->
  resourceProjectCreate retryTimeout requestDelay d w
  = (Some (Errorf ("error while waiting for project '" +:+ ID r +:+ "' to be created: "
                   +:+ Error e)),
     d, afterGets (ID r) (S n) (log_request (CreateProjectReq (createBody d)) w)).
Proof.
  intros Hr Hpend He Htime.
  unfold resourceProjectCreate. cbn [CreateProject]. rewrite Hr. cbn zeta.
  rewrite (WaitForState_aborts _ n _ e).
  - rewrite create_refreshed. reflexivity.
  - intros i Hi. destruct (Hpend i Hi) as (q & Hq & Hqs).
    apply (create_pendingAt _ _ _ _ _ _ q); assumption.
  - rewrite create_refreshed. cbn [createStateConf Refresh].
    rewrite createRefresh_fst, afterGets_onGet, afterGets_gets. cbn [log_request onGet gets].
    rewrite He. reflexivity.
  - exact Htime.
Qed.

Lemma create_fails_on_get_error_witness :
  resourceProjectCreate 1000 500 planned vanishing
  = (Some (Errorf "error while waiting for project 'p-1' to be created: not found"),
     planned,
     afterGets "p-1" 2 (log_request (CreateProjectReq (createBody planned)) vanishing)).
Proof.
  apply (create_fails_on_get_error 1000 500 planned vanishing (team_a "Inactive") 1 not_found).
  - reflexivity.
  - intros [|i] Hi; [eexists; split; reflexivity | lia].
  - reflexivity.
  - apply Nat.ltb_lt. reflexivity.
Defined.

(** Create from end to end.  After a successful create call, once the wait
    has seen the project active and the read that follows gets the project,
    Create returns no error, the identity is the one the remote side
    assigned, and the attributes are the ones the read got; the gets made are
    those of the wait and of the read and no more. *)
Theorem create_succeeds retryTimeout requestDelay d w r n p m q :
  onCreate w = Ok r ->
  (forall i, i < n -> exists q, onGet w (gets w + i) = Ok q /\ Status q = projectInactive) ->
  onGet w (gets w + n) = Ok p ->
  Status p = projectActive ->
  refreshTime retryTimeout requestDelay 0 n < Timeout TimeoutCreate d ->
  (forall i, i < m -> isTransient (onGet w (gets w + S n + i)) = true) ->
  onGet w (gets w + S n + m) = Ok q ->
  retryTime m < Timeout TimeoutRead d ->
  let out := resourceProjectCreate retryTimeout requestDelay d w in
  out = (None, materialized q (SetId (ID r) d),
         afterGets (ID r) (S n + S m) (log_request (CreateProjectReq (createBody d)) w))
  /\ Id (snd (fst out)) = ID r
  /\ Get "name" (snd (fst out)) = Some (VString (Name q))
  /\ Get "status" (snd (fst out)) = Some (VString (Status q))
  /\ gets (snd out) = gets w + n + m + 2.
Proof.
  intros Hr Hpend Hp Hst Htime Ht Hq Htime2. cbn zeta.
  rewrite (create_then_read retryTimeout requestDelay d w r n p Hr Hpend Hp Hst Htime).
  rewrite (read_found _ _ m q).
  - cbn [Id SetId rd_id]. rewrite afterGets_add. cbn [fst snd].
    split; [reflexivity|]. split; [reflexivity|]. split; [reflexivity|].
    split; [reflexivity|].
    rewrite afterGets_gets. cbn [log_request gets]. lia.
  - intros i Hi. rewrite afterGets_onGet, afterGets_gets. apply Ht, Hi.
  - rewrite afterGets_onGet, afterGets_gets. exact Hq.
  - exact Htime2.
Qed.

Lemma create_succeeds_witness :
  let out := resourceProjectCreate 1000 500 planned slow_start in
  out = (None, materialized (team_a "Active") (SetId "p-1" planned),
         afterGets "p-1" 4 (log_request (CreateProjectReq (createBody planned)) slow_start))
  /\ Id (snd (fst out)) = "p-1"
  /\ Get "name" (snd (fst out)) = Some (VString "team-a")
  /\ Get "status" (snd (fst out)) = Some (VString "Active")
  /\ gets (snd out) = 4.
Proof.
  apply (create_succeeds 1000 500 planned slow_start (team_a "Inactive") 2
           (team_a "Active") 0 (team_a "Active")).
  - reflexivity.
  - intros [|[|i]] Hi; [eexists; split; reflexivity .. | lia].
  - reflexivity.
  - reflexivity.
  - apply Nat.ltb_lt. reflexivity.
  - intros i Hi. lia.
  - reflexivity.
  - apply Nat.ltb_lt. reflexivity.
Defined.

(** What the read at the end of Create can do to it.  Once the wait has seen
    the project active: when the read finds the project forbidden or not
    found, Create returns no error and leaves no identity; when the read
    meets an error it neither retries nor takes for "absent", Create returns
    that error as the client gave it, with the new identity stored. *)
Theorem create_depends_on_read retryTimeout requestDelay d w r n p m :
  onCreate w = Ok r ->
  (forall i, i < n -> exists q, onGet w (gets w + i) = Ok q /\ Status q = projectInactive) ->
  onGet w (gets w + n) = Ok p ->
  Status p = projectActive ->
  refreshTime retryTimeout requestDelay 0 n < Timeout TimeoutCreate d ->
  (forall i, i < m -> isTransient (onGet w (gets w + S n + i)) = true) ->
  retryTime m < Timeout TimeoutRead d ->
  let w2 := afterGets (ID r) (S n + S m) (log_request (CreateProjectReq (createBody d)) w) in
  (isAbsent (onGet w (gets w + S n + m)) = true ->
   resourceProjectCreate retryTimeout requestDelay d w = (None, SetId "" d, w2))
  /\ (forall e,
        onGet w (gets w + S n + m) = Err e ->
        isTransient (Err e) = false ->
        isAbsent (Err e) = false ->
        resourceProjectCreate retryTimeout requestDelay d w = (Some e, SetId (ID r) d, w2)).
Proof.
  intros Hr Hpend Hp Hst Htime Ht Htime2. cbn zeta.
  rewrite (create_then_read retryTimeout requestDelay d w r n p Hr Hpend Hp Hst Htime).
  assert (Ht' : forall i, i < m ->
            isTransient
              (onGet (afterGets (ID r) (S n)
                        (log_request (CreateProjectReq (createBody d)) w))
                 (gets (afterGets (ID r) (S n)
                          (log_request (CreateProjectReq (createBody d)) w)) + i)) = true).
  { intros i Hi. rewrite afterGets_onGet, afterGets_gets. apply Ht, Hi. }
  split.
  - intros Ha. rewrite (read_absent _ _ m Ht').
    + cbn [Id SetId rd_id]. rewrite afterGets_add. reflexivity.
    + rewrite afterGets_onGet, afterGets_gets. exact Ha.
    + exact Htime2.
  - intros e He Hnt Hna. rewrite (read_decided _ _ m Ht').
    + unfold readOnce. rewrite (readAttempt_fatal _ _ e).
      * cbn [Id SetId rd_id]. rewrite <- afterGets_S, afterGets_add. reflexivity.
      * rewrite !afterGets_onGet, !afterGets_gets. cbn [log_request onGet gets].
        exact He.
      * exact Hnt.
      * exact Hna.
    + rewrite afterGets_onGet, afterGets_gets. cbn [log_request onGet gets].
      rewrite He. exact Hnt.
    + exact Htime2.
Qed.

Lemma create_depends_on_read_witness :
  resourceProjectCreate 1000 500 planned active_then_gone
  = (None, SetId "" planned,
     afterGets "p-1" 2
       (log_request (CreateProjectReq (createBody planned)) active_then_gone))
  /\ resourceProjectCreate 1000 500 planned active_then_no_access
     = (Some unauthorized, SetId "p-1" planned,
        afterGets "p-1" 2
          (log_request (CreateProjectReq (createBody planned)) active_then_no_access)).
Proof.
  split.
  - destruct (create_depends_on_read 1000 500 planned active_then_gone
                (team_a "Inactive") 0 (team_a "Active") 0) as [H _].
    + reflexivity.
    + intros i Hi. lia.
    + reflexivity.
    + reflexivity.
    + apply Nat.ltb_lt. reflexivity.
    + intros i Hi. lia.
    + apply Nat.ltb_lt. reflexivity.
    + apply H. reflexivity.
  - destruct (create_depends_on_read 1000 500 planned active_then_no_access
                (team_a "Inactive") 0 (team_a "Active") 0) as [_ H].
    + reflexivity.
    + intros i Hi. lia.
    + reflexivity.
    + reflexivity.
    + apply Nat.ltb_lt. reflexivity.
    + intros i Hi. lia.
    + apply Nat.ltb_lt. reflexivity.
    + apply (H unauthorized); reflexivity.
Defined.

(** The wait of Create ends after some number of gets for the new identity. *)
Lemma create_wait_world retryTimeout requestDelay id d w :
  exists k,
    snd (WaitForState (createStateConf retryTimeout requestDelay id d) w)
    = afterGets id k w.
Proof.
  unfold WaitForState.
  destruct (refreshLoop_final (createStateConf retryTimeout requestDelay id d)
              (conf_Timeout (createStateConf retryTimeout requestDelay id d))
              (Delay (createStateConf retryTimeout requestDelay id d)) 0 "" w) as [k Hk].
  exists k. rewrite Hk. apply create_refreshed.
Qed.

(** Create sends its create request first and gets after it. *)
Lemma create_sent retryTimeout requestDelay d w :
  exists l,
    sent (snd (resourceProjectCreate retryTimeout requestDelay d w))
      = (l ++ CreateProjectReq (createBody d) :: sent w)%list
    /\ forallb isGetReq l = true.
Proof.
  unfold resourceProjectCreate. cbn [CreateProject].
  destruct (onCreate w) as [r|e]; [|exists []; auto]. cbn zeta.
  destruct (create_wait_world retryTimeout requestDelay (ID r) d
              (log_request (CreateProjectReq (createBody d)) w)) as [k Hk].
  destruct (afterGets_sent (ID r) k (log_request (CreateProjectReq (createBody d)) w))
    as (l1 & Hl1 & Hg1 & _).
  destruct (WaitForState _ _) as [[p|e] w2]; cbn [snd] in Hk; subst w2.
  - destruct (read_sent (SetId (ID r) d)
                (afterGets (ID r) k (log_request (CreateProjectReq (createBody d)) w)))
      as (l2 & Hl2 & Hg2).
    exists (l2 ++ l1)%list. rewrite Hl2, Hl1, forallb_app, Hg1, Hg2, <- app_assoc. auto.
  - exists l1. cbn [snd]. rewrite Hl1. auto.
Qed.

(** The create request.  Create sends one create request, before anything
    else, with the desired name; the request carries labels only when the
    desired label map is not empty, and then the whole map. *)
Theorem create_request retryTimeout requestDelay d w :
  exists l body,
    sent (snd (resourceProjectCreate retryTimeout requestDelay d w))
      = (l ++ CreateProjectReq body :: sent w)%list
    /\ forallb isGetReq l = true
    /\ cb_Name body = name (rd_new d)
    /\ cb_Labels body
       = (if bool_decide (labels (rd_new d) = ∅) then None else Some (labels (rd_new d))).
Proof.
  destruct (create_sent retryTimeout requestDelay d w) as (l & Hl & Hg).
  exists l, (createBody d). split; [exact Hl|]. split; [exact Hg|].
  unfold createBody, GetOk, Get. rewrite attr_labels. cbn [cb_Name cb_Labels as_map].
  split; [reflexivity|].
  destruct (bool_decide (labels (rd_new d) = ∅)); cbn [negb]; [reflexivity|].
  rewrite copyLabels_id. reflexivity.
Qed.

(** *** Update *)

(** What the read at the end of Update makes of it.  After a successful
    update call: when the read gets the project, Update returns no error and
    the attributes are the ones the remote side reports, whatever was sent;
    when the read meets an error it neither retries nor takes for "absent",
    Update returns that error as the client gave it, unlike an error of the
    update call, and the data are as they were. *)
Theorem update_depends_on_read d w m :
  onUpdate w = None ->
  (forall i, i < m -> isTransient (onGet w (gets w + i)) = true) ->
  retryTime m < Timeout TimeoutRead d ->
  let w2 := afterGets (Id d) (S m) (log_request (UpdateProjectReq (Id d) (updateBody d)) w) in
  (forall q, onGet w (gets w + m) = Ok q ->
     resourceProjectUpdate d w = (None, materialized q d, w2)
     /\ Get "name" (materialized q d) = Some (VString (Name q))
     /\ Get "labels" (materialized q d) = Some (VMap (default ∅ (Labels q))))
  /\ (forall e,
        onGet w (gets w + m) = Err e ->
        isTransient (Err e) = false ->
        isAbsent (Err e) = false ->
        resourceProjectUpdate d w = (Some e, d, w2)).
Proof.
  intros Hu Ht Htime. cbn zeta.
  unfold resourceProjectUpdate. cbn [UpdateProject]. rewrite Hu.
  split.
  - intros q Hq. split; [|split; reflexivity].
    apply read_found; auto.
  - intros e He Hnt Hna.
    rewrite (read_decided d _ m) by (cbn [log_request onGet gets]; rewrite ?He; auto).
    unfold readOnce. rewrite (readAttempt_fatal _ _ e), afterGets_S; auto.
    rewrite afterGets_onGet, afterGets_gets. exact He.
Qed.

Lemma update_depends_on_read_witness :
  (resourceProjectUpdate tracked renamed_remotely
   = (None,
      materialized
        {| ID := "p-1"; Name := "team-b"; Labels := None; Status := "Active";
           CreationTimestamp := {| DateTime_String := "2020-03-01T10:00:00.000Z" |};
           DeletionTimestamp := zeroDateTime |} tracked,
      afterGets "p-1" 1
        (log_request (UpdateProjectReq "p-1" (updateBody tracked)) renamed_remotely))
   /\ Get "name" (snd (fst (resourceProjectUpdate tracked renamed_remotely)))
      = Some (VString "team-b"))
  /\ resourceProjectUpdate tracked no_access
     = (Some unauthorized, tracked,
        afterGets "p-1" 1
          (log_request (UpdateProjectReq "p-1" (updateBody tracked)) no_access)).
Proof.
  split.
  - destruct (update_depends_on_read tracked renamed_remotely 0) as [H _].
    + reflexivity.
    + intros i Hi. lia.
    + apply Nat.ltb_lt. reflexivity.
    + destruct (H _ eq_refl) as (Heq & Hname & _).
      split; [exact Heq|]. rewrite Heq. exact Hname.
  - destruct (update_depends_on_read tracked no_access 0) as [_ H].
    + reflexivity.
    + intros i Hi. lia.
    + apply Nat.ltb_lt. reflexivity.
    + apply (H unauthorized); reflexivity.
Defined.

(** *** The gets of Create *)

(** The gets of Create.  After a successful create call, every get Create
    makes is for the identity the remote side assigned: first those of the
    wait, each started before the create timeout and each but the last
    answered with an inactive project, then those of the read, each started
    before the read timeout. *)
Theorem create_gets retryTimeout requestDelay d w r :
  onCreate w = Ok r ->
  exists k k',
    snd (resourceProjectCreate retryTimeout requestDelay d w)
    = afterGets (ID r) (k + k') (log_request (CreateProjectReq (createBody d)) w)
    /\ (forall i, i < k ->
          refreshTime retryTimeout requestDelay 0 i < Timeout TimeoutCreate d)
    /\ (forall i, S i < k ->
          exists q, onGet w (gets w + i) = Ok q /\ Status q = projectInactive)
    /\ (forall i, i < k' -> retryTime i < Timeout TimeoutRead d).
Proof.
  intros Hr. unfold resourceProjectCreate. cbn [CreateProject]. rewrite Hr. cbn zeta.
  set (w1 := log_request (CreateProjectReq (createBody d)) w).
  set (conf := createStateConf retryTimeout requestDelay (ID r) d).
  destruct (refreshLoop_trace conf (conf_Timeout conf) (Delay conf) 0 "" w1)
    as (k & Hk & Htime & Hrounds).
  fold (WaitForState conf w1) in Hk.
  unfold conf in Hk at 2. rewrite create_refreshed in Hk.
  assert (Hinactive : forall i, S i < k ->
            exists q, onGet w (gets w + i) = Ok q /\ Status q = projectInactive).
  { intros i Hi. destruct (Hrounds i Hi) as (res & st & Hres & _ & Hpd).
    unfold conf in Hres. rewrite create_refreshed in Hres.
    cbn [createStateConf Refresh] in Hres.
    rewrite createRefresh_fst, afterGets_onGet, afterGets_gets in Hres.
    unfold w1 in Hres. cbn [log_request onGet gets] in Hres.
    destruct (onGet w (gets w + i)) as [q|]; [|discriminate].
    injection Hres as -> <-. exists res. split; [reflexivity|].
    unfold conf in Hpd. cbn [createStateConf Pending state_in existsb length Nat.eqb] in Hpd.
    rewrite !orb_false_r in Hpd. apply String.eqb_eq. exact Hpd. }
  destruct (WaitForState conf w1) as [[p|e] w2]; cbn [snd] in Hk; subst w2.
  - destruct (read_trace (SetId (ID r) d) (afterGets (ID r) k w1))
      as (k' & Hk' & Htime' & _).
    exists k, k'. rewrite Hk'. cbn [Id SetId rd_id]. rewrite afterGets_add.
    split; [reflexivity|]. split; [exact Htime|]. split; [exact Hinactive|].
    exact Htime'.
  - exists k, 0. rewrite Nat.add_0_r.
    split; [reflexivity|]. split; [exact Htime|]. split; [exact Hinactive|].
    intros i Hi. lia.
Qed.

Lemma create_gets_witness :
  exists k k',
    snd (resourceProjectCreate 1000 500 planned slow_start)
    = afterGets "p-1" (k + k')
        (log_request (CreateProjectReq (createBody planned)) slow_start)
    /\ (forall i, i < k -> refreshTime 1000 500 0 i < Timeout TimeoutCreate planned)
    /\ (forall i, S i < k ->
          exists q, onGet slow_start (gets slow_start + i) = Ok q
                    /\ Status q = projectInactive)
    /\ (forall i, i < k' -> retryTime i < Timeout TimeoutRead planned).
Proof.
  apply (create_gets 1000 500 planned slow_start (team_a "Inactive")).
  reflexivity.
Defined.
